(** * Market Radar 360: the ingestion scripts, embedded and verified

    A shallow embedding of [scripts/utils.py] and of the fetcher scripts
    ([fetch_congress.py], [fetch_13f.py], [fetch_flows.py],
    [fetch_insiders.py], [fetch_macro.py], [fetch_sentiment.py]).

    Conventions of the embedding.
    - A Python [str] is a [string]; the text handled by the scripts is
      ASCII, and the Unicode tables behind [str.lower], [str.isalnum],
      [str.split] and [str.strip] are modelled on the code points below
      128 (a code point from 128 up is neither a letter, a digit nor
      white space here).
    - A Python [float] is the rational it denotes ([Q]); the rounding to
      binary64 is not modelled.
    - A call that can raise returns a [result]; [try]/[except] is a match
      on it.
    - A [dict] is a [gmap] from its keys; a JSON document is a [value].
    - The clocks are read by the caller: a function takes the readings
      of [datetime.utcnow()] and [datetime.now()] it uses.
    - [jsonschema] and the file system are the operations of a
      [Platform]; the Sink Writer's effect is the list of its calls. *)

From Stdlib Require Import String Ascii List ZArith QArith Qminmax Qround.
From Stdlib Require Import Lia Lqa.
From Stdlib Require Import Permutation Sorted.
From stdpp Require Import base option list gmap strings pretty.

Local Open Scope list_scope.

#[local] Arguments String.append : simpl nomatch.

(** ** Exceptions and results *)

Inductive exn : Type :=
  | IndexError
  | KeyError (key : string)
  | ValueError
  | TypeError
  | AttributeError
  | SchemaError.

Inductive result (A : Type) : Type :=
  | Ok (a : A)
  | Raise (e : exn).

Arguments Ok {A} a.
Arguments Raise {A} e.

(** Sequencing: the first exception raised ends the computation. *)
#[export] Instance result_ret : MRet result := fun A a => Ok a.
#[export] Instance result_bind : MBind result := fun A B k r =>
  match r with
  | Ok a => k a
  | Raise e => Raise e
  end.

(** ** Python strings *)

Module Str.

(** [c.isspace()] on the code points below 128: tab, line feed, vertical
    tab, form feed, carriage return, the four separators 28..31, space. *)
Definition isspace (c : ascii) : bool :=
  let n := nat_of_ascii c in
  ((9 <=? n) && (n <=? 13) || (28 <=? n) && (n <=? 32))%nat.

Definition isupper (c : ascii) : bool :=
  let n := nat_of_ascii c in ((65 <=? n) && (n <=? 90))%nat.

Definition islower (c : ascii) : bool :=
  let n := nat_of_ascii c in ((97 <=? n) && (n <=? 122))%nat.

Definition isdigit (c : ascii) : bool :=
  let n := nat_of_ascii c in ((48 <=? n) && (n <=? 57))%nat.

(** [c.isalnum()] *)
Definition isalnum (c : ascii) : bool :=
  isdigit c || isupper c || islower c.

(** [c.lower()] *)
Definition lower_char (c : ascii) : ascii :=
  if isupper c then ascii_of_nat (nat_of_ascii c + 32) else c.

Fixpoint map (f : ascii → ascii) (s : string) : string :=
  match s with
  | EmptyString => EmptyString
  | String c s' => String (f c) (map f s')
  end.

Fixpoint filter (p : ascii → bool) (s : string) : string :=
  match s with
  | EmptyString => EmptyString
  | String c s' => if p c then String c (filter p s') else filter p s'
  end.

Fixpoint all (p : ascii → bool) (s : string) : bool :=
  match s with
  | EmptyString => true
  | String c s' => p c && all p s'
  end.

Definition is_empty (s : string) : bool :=
  match s with EmptyString => true | _ => false end.

(** [s.lower()] *)
Definition lower (s : string) : string := map lower_char s.

(** [needle in s] *)
Fixpoint contains (needle s : string) : bool :=
  String.prefix needle s ||
  match s with
  | EmptyString => false
  | String _ s' => contains needle s'
  end.

(** [s.split()]: the maximal runs of characters that are not white
    space, in order.  [tok] is the run being read. *)
Fixpoint split_from (tok s : string) : list string :=
  match s with
  | EmptyString => if is_empty tok then [] else [tok]
  | String c s' =>
      if isspace c
      then (if is_empty tok then split_from EmptyString s'
            else tok :: split_from EmptyString s')
      else split_from (tok +:+ String c EmptyString) s'
  end.

Definition split (s : string) : list string := split_from EmptyString s.

(** [s.replace(old, new)] for a one-character [old]. *)
Fixpoint replace (old : ascii) (new s : string) : string :=
  match s with
  | EmptyString => EmptyString
  | String c s' =>
      if Ascii.eqb c old then new +:+ replace old new s'
      else String c (replace old new s')
  end.

(** [s.split(sep)] for a one-character [sep]: the pieces between the
    occurrences of [sep], empty pieces kept; never the empty list. *)
Fixpoint split_on (sep : ascii) (s : string) : list string :=
  match s with
  | EmptyString => [EmptyString]
  | String c s' =>
      if Ascii.eqb c sep then EmptyString :: split_on sep s'
      else match split_on sep s' with
           | [] => [String c EmptyString]
           | piece :: pieces => String c piece :: pieces
           end
  end.

(** Stripping the characters that satisfy [p] from both ends. *)
Fixpoint lstrip_by (p : ascii → bool) (s : string) : string :=
  match s with
  | EmptyString => EmptyString
  | String c s' => if p c then lstrip_by p s' else s
  end.

Fixpoint rstrip_by (p : ascii → bool) (s : string) : string :=
  match s with
  | EmptyString => EmptyString
  | String c s' =>
      let r := rstrip_by p s' in
      if is_empty r && p c then EmptyString else String c r
  end.

Definition strip_by (p : ascii → bool) (s : string) : string :=
  lstrip_by p (rstrip_by p s).

(** [s.strip()] *)
Definition strip (s : string) : string := strip_by isspace s.

(** The decimal digits of [n], least significant last, on exactly [width]
    characters (the ["%0<width>d"] of a number below [10 ^ width]). *)
Fixpoint zero_padded (width n : nat) : string :=
  match width with
  | O => EmptyString
  | S w =>
      zero_padded w (n / 10) +:+ String (ascii_of_nat (48 + n mod 10)) EmptyString
  end.

End Str.

(** ** Python numbers: [float(s)] *)

(** A float: the rational it denotes, an infinity or a NaN. *)
Inductive pyfloat : Type :=
  | Finite (q : Q)
  | Infinity (negative : bool)
  | NaN.

Inductive pynum : Type :=
  | PyInt (z : Z)
  | PyFloat (x : pyfloat).

Module Float.

(** The white space [float] ignores around a number: tab, line feed,
    vertical tab, form feed, carriage return and space. *)
Definition isspace (c : ascii) : bool :=
  let n := nat_of_ascii c in
  ((9 <=? n) && (n <=? 13) || (n =? 32))%nat.

(** [digitpart ::= digit (["_"] digit)*]: the longest such prefix of [s]
    (underscores dropped) and what follows it. *)
Fixpoint digitpart (s : string) : string * string :=
  match s with
  | EmptyString => (EmptyString, EmptyString)
  | String c s' =>
      if Str.isdigit c then
        match s' with
        | String u (String d _ as t) =>
            if Ascii.eqb u "_" && Str.isdigit d
            then let (ds, rest) := digitpart t in (String c ds, rest)
            else let (ds, rest) := digitpart s' in (String c ds, rest)
        | _ => let (ds, rest) := digitpart s' in (String c ds, rest)
        end
      else (EmptyString, s)
  end.

(** The number written by a string of decimal digits, read after [acc]. *)
Fixpoint digits_value (acc : Z) (ds : string) : Z :=
  match ds with
  | EmptyString => acc
  | String c ds' => digits_value (10 * acc + (Z.of_nat (nat_of_ascii c) - 48)) ds'
  end.

(** [sign ::= "+" | "-"], optional: whether it is a minus, and the rest. *)
Definition sign (s : string) : bool * string :=
  match s with
  | String c s' =>
      if Ascii.eqb c "+" then (false, s')
      else if Ascii.eqb c "-" then (true, s')
      else (false, s)
  | EmptyString => (false, s)
  end.

(** [exponent ::= ("e" | "E") [sign] digitpart], optional, up to the end
    of the string. *)
Definition exponent (s : string) : option Z :=
  match s with
  | EmptyString => Some 0%Z
  | String c s' =>
      if Ascii.eqb c "e" || Ascii.eqb c "E" then
        let (neg, s'') := sign s' in
        match digitpart s'' with
        | (String d ds, EmptyString) =>
            let e := digits_value 0 (String d ds) in
            Some (if neg then (- e)%Z else e)
        | _ => None
        end
      else None
  end.

(** [number ::= [digitpart] "." digitpart | digitpart ["."]], followed by
    the optional exponent: mantissa digits, number of fraction digits,
    exponent. *)
Definition floatnumber (s : string) : option (string * nat * Z) :=
  let (ip, r1) := digitpart s in
  let (point, r2) :=
    match r1 with
    | String c r => if Ascii.eqb c "." then (true, r) else (false, r1)
    | EmptyString => (false, r1)
    end in
  let (fp, r3) := if point then digitpart r2 else (EmptyString, r2) in
  if Str.is_empty ip && (negb point || Str.is_empty fp) then None
  else e ← exponent r3; Some (ip +:+ fp, String.length fp, e).

(** [floatvalue ::= [sign] (floatnumber | infinity | nan)] *)
Definition floatvalue (s : string) : option pyfloat :=
  let (neg, body) := sign s in
  let word := Str.lower body in
  if String.eqb word "inf" || String.eqb word "infinity" then Some (Infinity neg)
  else if String.eqb word "nan" then Some NaN
  else
    '(ds, frac, e) ← floatnumber body;
    let m := digits_value 0 ds in
    let q := (inject_Z (if neg then - m else m) * Qpower (inject_Z 10) (e - Z.of_nat frac))%Q in
    Some (Finite (Qred q)).

End Float.

(** [float(s)]: white space around the number is ignored; anything that
    is not a [floatvalue] raises [ValueError]. *)
Definition py_float (s : string) : result pyfloat :=
  match Float.floatvalue (Str.strip_by Float.isspace s) with
  | Some x => Ok x
  | None => Raise ValueError
  end.

(** [l[i]] for [i >= 0] *)
Definition getitem {A : Type} (l : list A) (i : nat) : result A :=
  match l !! i with
  | Some x => Ok x
  | None => Raise IndexError
  end.

(** ** JSON documents *)

#[warnings="-register-all"]
Inductive value : Type :=
  | VNone
  | VBool (b : bool)
  | VInt (n : Z)
  | VFloat (x : pyfloat)
  | VStr (s : string)
  | VList (l : list value)
  | VDict (d : gmap string value).

Definition of_pynum (n : pynum) : value :=
  match n with
  | PyInt z => VInt z
  | PyFloat x => VFloat x
  end.

(** [d[key]] *)
Definition dict_getitem (d : gmap string value) (key : string) : result value :=
  match d !! key with
  | Some v => Ok v
  | None => Raise (KeyError key)
  end.

(** [d.get(key, dflt)] *)
Definition dict_get (d : gmap string value) (key : string) (dflt : value) : value :=
  default dflt (d !! key).

(** [len(l)] as stored in a document *)
Definition len {A : Type} (l : list A) : value := VInt (Z.of_nat (length l)).

(** ** [fetch_13f.py]: [Fund13FFetcher._create_slug] *)

(** [fund_name.split()[0]] *)
Definition first_word (fund_name : string) : result string :=
  getitem (Str.split fund_name) 0.

Definition _create_slug (fund_name : string) : result string :=
  w ← first_word fund_name;
  let first_word := Str.lower w in
  let slug := Str.filter Str.isalnum first_word in
  Ok slug.

(** ** [fetch_congress.py]: the normalization rules *)

Definition _normalize_transaction_type (raw_type : string) : string :=
  let raw_type_lower := Str.lower raw_type in
  if Str.contains "purchase" raw_type_lower || Str.contains "buy" raw_type_lower
  then "purchase"
  else if Str.contains "sale" raw_type_lower || Str.contains "sell" raw_type_lower
  then "sale"
  else if Str.contains "exchange" raw_type_lower
  then "exchange"
  else "purchase".

(** The body of the [try] of [_parse_amount_range]. *)
Definition parse_amount_range_try (amount_str : string) : result (pynum * pynum) :=
  let amount_str := Str.replace "," EmptyString (Str.replace "$" EmptyString amount_str) in
  if Str.contains "-" amount_str then
    let parts := Str.split_on "-" amount_str in
    p0 ← getitem parts 0;
    min_val ← py_float (Str.strip p0);
    p1 ← getitem parts 1;
    max_val ← py_float (Str.strip p1);
    Ok (PyFloat min_val, PyFloat max_val)
  else
    val ← py_float (Str.strip amount_str);
    Ok (PyFloat val, PyFloat val).


(** ** [utils.py] *)

(** A reading of the clock ([datetime.utcnow()], [datetime.now()]). *)
Record datetime : Type := {
  year : nat;
  month : nat;
  day : nat;
  hour : nat;
  minute : nat;
  second : nat;
  microsecond : nat
}.

(** [dt.strftime("%Y-%m-%d")] *)
Definition strftime_ymd (dt : datetime) : string :=
  Str.zero_padded 4 (year dt) +:+ "-" +:+ Str.zero_padded 2 (month dt)
  +:+ "-" +:+ Str.zero_padded 2 (day dt).

(** [dt.isoformat()]: [YYYY-MM-DDTHH:MM:SS], followed by [.ffffff] when the
    microsecond is not zero. *)
Definition isoformat (dt : datetime) : string :=
  strftime_ymd dt +:+ "T" +:+ Str.zero_padded 2 (hour dt)
  +:+ ":" +:+ Str.zero_padded 2 (minute dt)
  +:+ ":" +:+ Str.zero_padded 2 (second dt)
  +:+ (if Nat.eqb (microsecond dt) 0 then EmptyString
       else "." +:+ Str.zero_padded 6 (microsecond dt)).

(** [get_timestamp()], at the reading [utcnow] of the UTC clock. *)
Definition get_timestamp (utcnow : datetime) : string :=
  isoformat utcnow +:+ "Z".

(** [create_metadata] called with keyword arguments [keywords], as every
    caller in the repository does: the keyword [total_count], when given,
    binds the parameter of that name (0 when it is not given); the other
    keywords are collected in [kwargs].  [metadata.update(kwargs)] lets [kwargs] win on a key that
    [metadata] already has. *)
Definition create_metadata (utcnow : datetime) (keywords : gmap string value)
  : gmap string value :=
  let total_count := dict_get keywords "total_count" (VInt 0) in
  let kwargs := delete "total_count" keywords in
  let metadata : gmap string value :=
    {[ "last_updated" := VStr (get_timestamp utcnow);
       "total_count" := total_count ]} in
  kwargs ∪ metadata.

(** [safe_get(data, key1, ..., default=dflt)] *)
Fixpoint safe_get (data : value) (keys : list string) (dflt : value) : value :=
  match keys with
  | [] => match data with VNone => dflt | _ => data end
  | key :: keys' =>
      match data with
      | VDict d => safe_get (dict_get d key dflt) keys' dflt
      | _ => dflt
      end
  end.

(** What the scripts call but do not define: [jsonschema.validate] and the
    file system under [DataWriter.write_json]. *)
Inductive validation : Type :=
  | Valid
  | ValidationError (message : string)
  | InvalidSchema.

Class Platform : Type := {
  (** [jsonschema.validate(instance, schema)]: returns, raises
      [ValidationError], or raises [SchemaError] on a schema that is not
      one. *)
  jsonschema_validate : value → value → validation;
  (** whether creating the directories of the path, opening the file and
      dumping the document into it all succeed *)
  dump_succeeds : value → string → bool
}.

(** [DataValidator]: the schemas loaded at construction, by file stem. *)
Record DataValidator : Type := {
  schemas : gmap string value
}.

(** [DataValidator.validate]: only [ValidationError] is caught. *)
Definition validate `{Platform} (self : DataValidator) (data : value)
    (schema_name : string) : result bool :=
  match schemas self !! schema_name with
  | None => Ok false
  | Some schema =>
      match jsonschema_validate data schema with
      | Valid => Ok true
      | ValidationError _ => Ok false
      | InvalidSchema => Raise SchemaError
      end
  end.

(** The Sink Writer's history: the calls of [write_json], oldest first. *)
Record write_call : Type := {
  written_data : value;
  written_path : string;
  written_ok : bool
}.

Abbreviation sink := (list write_call).

(** [DataWriter.write_json(data, output_path)]: every exception is caught
    and reported as [False]. *)
Definition write_json `{Platform} (data : value) (output_path : string)
    (sk : sink) : bool * sink :=
  let ok := dump_succeeds data output_path in
  (ok, sk ++ [{| written_data := data; written_path := output_path;
                 written_ok := ok |}]).

(** [validate-then-write], the body shared by the [save] methods that
    validate. *)
Definition validate_and_write `{Platform} (validator : DataValidator)
    (schema_name : string) (data : value) (output_path : string) (sk : sink)
  : result bool * sink :=
  match validate validator data schema_name with
  | Raise e => (Raise e, sk)
  | Ok false => (Ok false, sk)
  | Ok true =>
      let (ok, sk') := write_json data output_path sk in (Ok ok, sk')
  end.

(** ** [list.sort(key=..., reverse=True)] *)

Section Sorting.
Context {A : Type} (key : A → string).

(** [x] goes before the first element whose key is not above its own. *)
Fixpoint insert_desc (x : A) (l : list A) : list A :=
  match l with
  | [] => [x]
  | y :: l' =>
      if String.ltb (key x) (key y) then y :: insert_desc x l'
      else x :: y :: l'
  end.

(** The stable sort on descending keys: elements with equal keys keep
    their order. *)
Definition sort_desc (l : list A) : list A := foldr insert_desc [] l.

End Sorting.

(** The key [lambda x: x.get("date", empty)], [empty] the empty string. *)
Definition date_key (x : gmap string value) : value :=
  dict_get x "date" (VStr EmptyString).

Definition date_str (x : gmap string value) : string :=
  match date_key x with VStr d => d | _ => EmptyString end.

Definition has_str_date (x : gmap string value) : bool :=
  match date_key x with VStr _ => true | _ => false end.

(** [transactions.sort(key=date_key, reverse=True)] on
    records whose date, when present, is a string.  A key that is not a
    string is outside the model of the comparison and is reported as the
    [TypeError] of a string compared with a number or [None]. *)
Definition sort_by_date (transactions : list (gmap string value))
  : result (list (gmap string value)) :=
  if forallb has_str_date transactions
  then Ok (sort_desc date_str transactions)
  else Raise TypeError.

(** ** [fetch_congress.py]: [CongressDataFetcher] *)

Module CongressDataFetcher.

(** A method of [str] called on [v]: an [AttributeError] when [v] is not a
    string. *)
Definition as_str (v : value) : result string :=
  match v with
  | VStr s => Ok s
  | _ => Raise AttributeError
  end.

(** [self._parse_amount_range(v)] for any value: on a value that is not a
    string [replace] raises inside the [try], and the bare [except] returns
    [(0, 0)]. *)
Definition parse_amount_range_value (v : value) : result (pynum * pynum) :=
  match (amount_str ← as_str v; parse_amount_range_try amount_str) with
  | Ok r => Ok r
  | Raise _ => Ok (PyInt 0, PyInt 0)
  end.

(** The body of the [try] of [_normalize_transaction]. *)
Definition normalize_transaction_try (raw_data : value) (chamber : string)
  : result (gmap string value) :=
  raw_type ← as_str (safe_get raw_data ["type"] (VStr "purchase"));
  let transaction : gmap string value :=
    {[ "person" := safe_get raw_data ["representative"] (VStr "Unknown");
       "chamber" := VStr chamber;
       "ticker" := safe_get raw_data ["ticker"] (VStr "N/A");
       "sector" := safe_get raw_data ["sector"] (VStr "Unknown");
       "transaction_type" := VStr (_normalize_transaction_type raw_type);
       "amount_range" := safe_get raw_data ["amount"] (VStr "N/A");
       "date" := safe_get raw_data ["transaction_date"] (VStr EmptyString);
       "disclosure_date" := safe_get raw_data ["disclosure_date"] (VStr EmptyString);
       "link" := safe_get raw_data ["ptr_link"] (VStr EmptyString) ]} in
  amount_range ← dict_getitem transaction "amount_range";
  '(amount_min, amount_max) ← parse_amount_range_value amount_range;
  let transaction := <["amount_min" := of_pynum amount_min]> transaction in
  let transaction := <["amount_max" := of_pynum amount_max]> transaction in
  Ok transaction.

(** [_normalize_transaction(raw_data, chamber)]: [None] when the body
    raises. *)
Definition _normalize_transaction (raw_data : value) (chamber : string)
  : option (gmap string value) :=
  match normalize_transaction_try raw_data chamber with
  | Ok transaction => Some transaction
  | Raise _ => None
  end.

(** The loop of [fetch_house_transactions] and [fetch_senate_transactions]
    over the items of the response: a record that fails is dropped. *)
Definition normalize_all (data : list value) (chamber : string)
  : list (gmap string value) :=
  omap (fun item => _normalize_transaction item chamber) data.

(** The aggregate step of [fetch_all]: concatenate, then sort in place. *)
Definition aggregate (house_transactions senate_transactions : list (gmap string value))
  : result (list (gmap string value)) :=
  let all_transactions := house_transactions ++ senate_transactions in
  sort_by_date all_transactions.

(** [fetch_all], from what the two fetch calls returned. *)
Definition fetch_all (utcnow : datetime)
    (house_transactions senate_transactions : list (gmap string value))
  : result (gmap string value) :=
  all_transactions ← aggregate house_transactions senate_transactions;
  date_from ← match last all_transactions with
              | Some x => dict_getitem x "date"
              | None => Ok (VStr EmptyString)
              end;
  date_to ← match head all_transactions with
            | Some x => dict_getitem x "date"
            | None => Ok (VStr EmptyString)
            end;
  Ok {[ "metadata" := VDict (create_metadata utcnow
          {[ "total_count" := len all_transactions;
             "house_count" := len house_transactions;
             "senate_count" := len senate_transactions;
             "date_range" := VDict {[ "from" := date_from; "to" := date_to ]} ]});
        "transactions" := VList (VDict <$> all_transactions) ]}.

Definition save `{Platform} (validator : DataValidator) (data : value)
    (output_path : string) (sk : sink) : result bool * sink :=
  validate_and_write validator "congress" data output_path sk.

End CongressDataFetcher.

(** ** [fetch_insiders.py]: [InsiderDataFetcher] *)

Module InsiderDataFetcher.

(** The aggregate step of [fetch_all]: the one list, sorted in place. *)
Definition aggregate (transactions : list (gmap string value))
  : result (list (gmap string value)) :=
  sort_by_date transactions.

(** [fetch_all], from what [fetch_recent_form4] returned. *)
Definition fetch_all (utcnow : datetime) (transactions : list (gmap string value))
  : result (gmap string value) :=
  transactions ← aggregate transactions;
  Ok {[ "metadata" := VDict (create_metadata utcnow
          {[ "total_count" := len transactions ]});
        "transactions" := VList (VDict <$> transactions) ]}.

Definition save `{Platform} (validator : DataValidator) (data : value)
    (output_path : string) (sk : sink) : result bool * sink :=
  validate_and_write validator "insiders" data output_path sk.

End InsiderDataFetcher.

(** ** [fetch_macro.py]: [MacroDataFetcher] *)

Module MacroDataFetcher.

(** [calculate_spread_2s10s] *)
Definition calculate_spread_2s10s (us2y us10y : Q) : Q := us10y - us2y.

Definition save `{Platform} (validator : DataValidator) (data : value)
    (output_path : string) (sk : sink) : result bool * sink :=
  validate_and_write validator "macro" data output_path sk.

End MacroDataFetcher.

(** ** [fetch_13f.py]: [Fund13FFetcher] *)

Module Fund13FFetcher.

(** The loop of [save_all] over the items of [funds_data], in the order of
    the dictionary; [all_success] is the flag so far. *)
Fixpoint save_all_from `{Platform} (validator : DataValidator)
    (all_success : bool) (funds_data : list (string * value)) (sk : sink)
  : result bool * sink :=
  match funds_data with
  | [] => (Ok all_success, sk)
  | (fund_slug, fund_data) :: rest =>
      let output_path := "data/funds/" +:+ fund_slug +:+ ".json" in
      match validate validator fund_data "fund_13f" with
      | Raise e => (Raise e, sk)
      | Ok false => save_all_from validator false rest sk
      | Ok true =>
          let (ok, sk') := write_json fund_data output_path sk in
          save_all_from validator (if ok then all_success else false) rest sk'
      end
  end.

Definition save_all `{Platform} (validator : DataValidator)
    (funds_data : list (string * value)) (sk : sink) : result bool * sink :=
  save_all_from validator true funds_data sk.

End Fund13FFetcher.

(** ** [fetch_flows.py]: [FlowDataFetcher] *)

Module FlowDataFetcher.

(** [fetch_etf_flows]: the sample records; [now i] is the [i]-th reading of
    the local clock in the run. *)
Definition fetch_etf_flows (now : nat → datetime) : list (gmap string value) :=
  [ {[ "ticker" := VStr "SPY"; "name" := VStr "SPDR S&P 500 ETF";
       "flow_1d" := VInt (-250000000); "flow_5d" := VInt (-1200000000);
       "flow_30d" := VInt 3500000000; "aum" := VInt 450000000000;
       "date" := VStr (strftime_ymd (now 0%nat)) ]};
    {[ "ticker" := VStr "QQQ"; "name" := VStr "Invesco QQQ Trust";
       "flow_1d" := VInt 150000000; "flow_5d" := VInt 800000000;
       "flow_30d" := VInt 5200000000; "aum" := VInt 250000000000;
       "date" := VStr (strftime_ymd (now 1%nat)) ]};
    {[ "ticker" := VStr "IWM"; "name" := VStr "iShares Russell 2000 ETF";
       "flow_1d" := VInt (-50000000); "flow_5d" := VInt (-200000000);
       "flow_30d" := VInt (-1500000000); "aum" := VInt 65000000000;
       "date" := VStr (strftime_ymd (now 2%nat)) ]} ].

(** [fetch_options_data]: the sample records. *)
Definition fetch_options_data (now : nat → datetime) : list (gmap string value) :=
  [ {[ "ticker" := VStr "SPY"; "total_volume" := VInt 8500000;
       "call_volume" := VInt 5000000; "put_volume" := VInt 3500000;
       "put_call_ratio" := VFloat (Finite 0.70); "total_oi" := VInt 15000000;
       "avg_volume_30d" := VInt 6500000; "volume_anomaly" := VBool true;
       "date" := VStr (strftime_ymd (now 3%nat)) ]};
    {[ "ticker" := VStr "AAPL"; "total_volume" := VInt 1200000;
       "call_volume" := VInt 800000; "put_volume" := VInt 400000;
       "put_call_ratio" := VFloat (Finite 0.50); "total_oi" := VInt 2500000;
       "avg_volume_30d" := VInt 950000; "volume_anomaly" := VBool true;
       "date" := VStr (strftime_ymd (now 4%nat)) ]};
    {[ "ticker" := VStr "TSLA"; "total_volume" := VInt 2000000;
       "call_volume" := VInt 1400000; "put_volume" := VInt 600000;
       "put_call_ratio" := VFloat (Finite 0.43); "total_oi" := VInt 3200000;
       "avg_volume_30d" := VInt 1800000; "volume_anomaly" := VBool false;
       "date" := VStr (strftime_ymd (now 5%nat)) ]} ].

Definition fetch_all (utcnow : datetime) (now : nat → datetime)
  : gmap string value :=
  let etf_flows := fetch_etf_flows now in
  let options_data := fetch_options_data now in
  {[ "metadata" := VDict (create_metadata utcnow
       {[ "etf_count" := len etf_flows;
          "options_count" := len options_data ]});
     "etf_flows" := VList (VDict <$> etf_flows);
     "options" := VList (VDict <$> options_data) ]}.

(** [save]: no validation, by its docstring (there is no schema). *)
Definition save `{Platform} (validator : DataValidator) (data : value)
    (output_path : string) (sk : sink) : result bool * sink :=
  let (ok, sk') := write_json data output_path sk in (Ok ok, sk').

End FlowDataFetcher.

(** ** [fetch_sentiment.py]: [SentimentDataFetcher] *)

Module SentimentDataFetcher.

(** The keys of the dictionary [weights]. *)
Inductive component : Type := Vix | PutCall | Momentum | SafeHaven.

Definition weights (c : component) : Q :=
  match c with
  | Vix => 0.30
  | PutCall => 0.25
  | Momentum => 0.25
  | SafeHaven => 0.20
  end.

(** The sample readings. *)
Definition vix_value : Q := 18.5.
Definition put_call_ratio : Q := 0.75.
Definition market_momentum : Q := 0.65.
Definition safe_haven_demand : Q := 0.35.

Definition vix_normalized : Q :=
  Qmax 0 (Qmin 100 (100 - (vix_value - 10) * 5)).

Definition put_call_normalized : Q :=
  Qmax 0 (Qmin 100 (100 - (put_call_ratio - 0.5) * 100)).

Definition momentum_normalized : Q := market_momentum * 100.

Definition safe_haven_normalized : Q := (1 - safe_haven_demand) * 100.

(** The weighted mean, as a function of the four normalized components. *)
Definition weighted_score (vix put_call momentum safe_haven : Q) : Q :=
  vix * weights Vix + put_call * weights PutCall
  + momentum * weights Momentum + safe_haven * weights SafeHaven.

Definition fear_greed_score : Q :=
  weighted_score vix_normalized put_call_normalized
    momentum_normalized safe_haven_normalized.

(** The classification chain, as a function of the score: the
    classification and the signal. *)
Definition classify (fear_greed_score : Q) : string * string :=
  if Qle_bool fear_greed_score 20 then ("Extreme Fear", "contrarian_buy")
  else if Qle_bool fear_greed_score 40 then ("Fear", "cautious")
  else if Qle_bool fear_greed_score 60 then ("Neutral", "neutral")
  else if Qle_bool fear_greed_score 80 then ("Greed", "cautious")
  else ("Extreme Greed", "contrarian_sell").

(** [round(x, 1)]: to the nearest tenth, a tie to the even one. *)
Definition round1 (x : Q) : Q :=
  let t := (x * 10)%Q in
  let f := Qfloor t in
  let r := (t - inject_Z f)%Q in
  let n := match (r ?= 1 # 2)%Q with
           | Lt => f
           | Gt => (f + 1)%Z
           | Eq => if Z.even f then f else (f + 1)%Z
           end in
  Qred (inject_Z n / 10).

Definition component_entry (reading normalized : Q) (c : component) : value :=
  VDict {[ "value" := VFloat (Finite reading);
           "normalized" := VFloat (Finite (round1 normalized));
           "weight" := VFloat (Finite (weights c)) ]}.

Definition calculate_fear_greed_index : gmap string value :=
  let (classification, signal) := classify fear_greed_score in
  {[ "index" := VFloat (Finite (round1 fear_greed_score));
     "classification" := VStr classification;
     "signal" := VStr signal;
     "components" := VDict
       {[ "vix" := component_entry vix_value vix_normalized Vix;
          "put_call_ratio" := component_entry put_call_ratio put_call_normalized PutCall;
          "market_momentum" := component_entry market_momentum momentum_normalized Momentum;
          "safe_haven_demand" := component_entry safe_haven_demand safe_haven_normalized SafeHaven ]} ]}.

(** [fetch_aaii_sentiment]: the sample survey; [now] is the local clock. *)
Definition fetch_aaii_sentiment (now : datetime) : gmap string value :=
  {[ "bullish" := VFloat (Finite 32.5);
     "neutral" := VFloat (Finite 30.0);
     "bearish" := VFloat (Finite 37.5);
     "bull_bear_spread" := VFloat (Finite (-5.0));
     "date" := VStr (strftime_ymd now);
     "interpretation" := VStr "Slightly Bearish" ]}.

Definition fetch_all (utcnow now : datetime) : gmap string value :=
  let fear_greed := calculate_fear_greed_index in
  let aaii := fetch_aaii_sentiment now in
  {[ "metadata" := VDict (create_metadata utcnow ∅);
     "fear_greed" := VDict fear_greed;
     "aaii" := VDict aaii ]}.

(** [save]: no validation. *)
Definition save `{Platform} (validator : DataValidator) (data : value)
    (output_path : string) (sk : sink) : result bool * sink :=
  let (ok, sk') := write_json data output_path sk in (Ok ok, sk').

End SentimentDataFetcher.

(** ** A platform and inputs to evaluate the scripts on *)

(** Every schema accepts every document and every write succeeds. *)
Definition permissive_platform : Platform :=
  {| jsonschema_validate := fun _ _ => Valid;
     dump_succeeds := fun _ _ => true |}.

(** Every schema rejects every document and every write succeeds. *)
Definition rejecting_platform : Platform :=
  {| jsonschema_validate := fun _ _ =>
       ValidationError "'metadata' is a required property";
     dump_succeeds := fun _ _ => true |}.

Definition sample_clock : datetime :=
  {| year := 2025; month := 11; day := 16; hour := 8; minute := 30;
     second := 5; microsecond := 0 |}.

(** ** Vocabulary of the statements *)

(** [needle] occurs in [s]. *)
Definition substring_of (needle s : string) : Prop :=
  ∃ pre post, s = pre +:+ needle +:+ post.

(** Some piece of [s] is [needle] up to the case of its letters. *)
Definition occurs_ignoring_case (needle s : string) : Prop :=
  ∃ pre mid post, s = pre +:+ mid +:+ post ∧ Str.lower mid = needle.


(** The three tests of [_normalize_transaction_type]. *)
Definition mentions_purchase (raw_type : string) : Prop :=
  occurs_ignoring_case "purchase" raw_type ∨ occurs_ignoring_case "buy" raw_type.

Definition mentions_sale (raw_type : string) : Prop :=
  occurs_ignoring_case "sale" raw_type ∨ occurs_ignoring_case "sell" raw_type.

Definition mentions_exchange (raw_type : string) : Prop :=
  occurs_ignoring_case "exchange" raw_type.







(** [s] is [width] decimal digits. *)
Definition digits_of_width (width : nat) (s : string) : Prop :=
  String.length s = width ∧ Str.all Str.isdigit s = true.

(** The shape [YYYY-MM-DDTHH:MM:SS] or [YYYY-MM-DDTHH:MM:SS.ffffff] of an
    ISO-8601 date and time, followed by the marker [Z]. *)
Definition iso8601_utc (s : string) : Prop :=
  ∃ yyyy mm dd hh mi ss fraction,
    s = yyyy +:+ "-" +:+ mm +:+ "-" +:+ dd +:+ "T" +:+ hh +:+ ":" +:+ mi
        +:+ ":" +:+ ss +:+ fraction +:+ "Z"
    ∧ digits_of_width 4 yyyy ∧ digits_of_width 2 mm ∧ digits_of_width 2 dd
    ∧ digits_of_width 2 hh ∧ digits_of_width 2 mi ∧ digits_of_width 2 ss
    ∧ (fraction = EmptyString
       ∨ ∃ ffffff, fraction = "." +:+ ffffff ∧ digits_of_width 6 ffffff).

(** The record of a call of [write_json]. *)
Definition call_of `{Platform} (data : value) (output_path : string) : write_call :=
  {| written_data := data; written_path := output_path;
     written_ok := dump_succeeds data output_path |}.

(** A registry with the congress schema only, and one with a schema for the
    flows document. *)
Definition congress_only : DataValidator :=
  {| schemas := {[ "congress" := VDict ∅ ]} |}.

Definition with_flows_schema : DataValidator :=
  {| schemas := {[ "flows" := VDict {[ "required" := VList [VStr "transactions"] ]} ]} |}.

(** The flows document of a run. *)
Definition sample_flows_document : value :=
  VDict (FlowDataFetcher.fetch_all sample_clock (fun _ => sample_clock)).




(** Two House records, one of them without date, and a Senate record. *)
Definition sample_house : list (gmap string value) :=
  [ {[ "person" := VStr "A"; "date" := VStr "2025-01-05" ]};
    {[ "person" := VStr "B" ]} ].

Definition sample_senate : list (gmap string value) :=
  [ {[ "person" := VStr "C"; "date" := VStr "2025-03-01" ]} ].

(** The House record of the first end-to-end scenario. *)
Definition scenario_house_item : value :=
  VDict {[ "representative" := VStr "A"; "ticker" := VStr "XYZ";
           "type" := VStr "purchase"; "amount" := VStr "$1,001 - $15,000";
           "transaction_date" := VStr "2025-01-05" ]}.


(** ** The rest of [utils.py] *)

Module utils.

(** [get_secret(secret_name, required)] in the process environment
    [environ]: a variable that is not set and one set to the empty string
    are both missing. *)
Definition get_secret (environ : gmap string string) (secret_name : string)
    (required : bool) : result (option string) :=
  let secret := environ !! secret_name in
  let missing := match secret with
                 | None => true
                 | Some s => Str.is_empty s
                 end in
  if required && missing then Raise ValueError else Ok secret.

(** [load_config(config_name)], from the outcome of opening and parsing
    the file: every exception gives the empty dictionary. *)
Definition load_config (config_file : result value) : value :=
  match config_file with
  | Ok config => config
  | Raise _ => VDict ∅
  end.

(** The loop of [DataValidator._load_schemas] over the files of the schema
    directory, each with its stem and the outcome of [json.load]; an
    exception of [json.load] is not caught. *)
Fixpoint load_schema_files (files : list (string * result value))
    (schemas : gmap string value) : result (gmap string value) :=
  match files with
  | [] => Ok schemas
  | (schema_name, loaded) :: rest =>
      schema ← loaded;
      load_schema_files rest (<[schema_name := schema]> schemas)
  end.

(** [DataValidator(schema_dir)]: [None] is a directory that does not exist,
    otherwise the [*.json] files found in it. *)
Definition new_validator (schema_dir : option (list (string * result value)))
  : result DataValidator :=
  match schema_dir with
  | None => Ok {| schemas := ∅ |}
  | Some files =>
      schemas ← load_schema_files files ∅;
      Ok {| schemas := schemas |}
  end.

End utils.

(** Following [keys] through nested dictionaries: the value at the end of
    the path, when every step is a dictionary that has the key. *)
Fixpoint path_lookup (data : value) (keys : list string) : option value :=
  match keys with
  | [] => Some data
  | key :: keys' =>
      match data with
      | VDict d => v ← d !! key; path_lookup v keys'
      | _ => None
      end
  end.

Definition is_dict (v : value) : bool :=
  match v with VDict _ => true | _ => false end.

(** ** The rest of [fetch_congress.py] *)

(** [for item in data]: the elements of a list, the characters of a string,
    the keys of a dictionary (here in the order of the map; the scripts
    iterate over a dictionary of the response only where every key gives
    the same result); a number, a truth value or [None] is not iterable. *)
Definition py_iter (data : value) : result (list value) :=
  match data with
  | VList l => Ok l
  | VStr s => Ok ((fun c => VStr (String c EmptyString)) <$> list_ascii_of_string s)
  | VDict d => Ok (VStr <$> (map_to_list d).*1)
  | _ => Raise TypeError
  end.

(** The truth value of a JSON value in a condition. *)
Definition truthy (v : value) : bool :=
  match v with
  | VNone => false
  | VBool b => b
  | VInt n => negb (Z.eqb n 0)
  | VFloat (Finite q) => negb (Qeq_bool q 0)
  | VFloat _ => true
  | VStr s => negb (Str.is_empty s)
  | VList l => match l with [] => false | _ => true end
  | VDict d => negb (bool_decide (d = ∅))
  end.

(** The exit status of a script whose [save] returned [success]. *)
Definition exit_status (success : bool) : nat := if success then 0%nat else 1%nat.

Module fetch_congress.

(** The body shared by [fetch_house_transactions] and
    [fetch_senate_transactions], from the outcome [response] of the request
    and of [response.json()]: every exception gives the empty list. *)
Definition fetch_transactions (response : result value) (chamber : string)
  : list (gmap string value) :=
  match (data ← response; py_iter data) with
  | Ok items => CongressDataFetcher.normalize_all items chamber
  | Raise _ => []
  end.

Definition fetch_house_transactions (response : result value)
  : list (gmap string value) :=
  fetch_transactions response "House".

Definition fetch_senate_transactions (response : result value)
  : list (gmap string value) :=
  fetch_transactions response "Senate".

(** [main()]: the exit status of the process, from what the schema
    directory holds and what the two requests answer; [Raise] is an
    exception that nothing catches. *)
Definition main `{Platform} (schema_dir : option (list (string * result value)))
    (utcnow : datetime) (house_response senate_response : result value)
    (sk : sink) : result nat * sink :=
  match utils.new_validator schema_dir with
  | Raise e => (Raise e, sk)
  | Ok validator =>
      let house_transactions := fetch_house_transactions house_response in
      let senate_transactions := fetch_senate_transactions senate_response in
      match CongressDataFetcher.fetch_all utcnow house_transactions
              senate_transactions with
      | Raise e => (Raise e, sk)
      | Ok data =>
          match dict_getitem data "transactions" with
          | Raise e => (Raise e, sk)
          | Ok transactions =>
              if truthy transactions then
                match CongressDataFetcher.save validator (VDict data)
                        "data/congress/all.json" sk with
                | (Ok success, sk') => (Ok (exit_status success), sk')
                | (Raise e, sk') => (Raise e, sk')
                end
              else (Ok 1%nat, sk)
          end
      end
  end.

End fetch_congress.

(** The keys of a normalized transaction. *)
Definition transaction_fields : gset string :=
  {[ "person"; "chamber"; "ticker"; "sector"; "transaction_type";
     "amount_range"; "date"; "disclosure_date"; "link";
     "amount_min"; "amount_max" ]}.

(** The [type] of a raw record as [_normalize_transaction] reads it. *)
Definition raw_type_of (raw_data : value) : value :=
  safe_get raw_data ["type"] (VStr "purchase").

Definition is_str (v : value) : bool :=
  match v with VStr _ => true | _ => false end.

(** The amounts of a record: two floats from a range that was read, or the
    two integers [0] of a range that was not. *)
Definition amounts_of (transaction : gmap string value) : Prop :=
  (∃ x y, transaction !! "amount_min" = Some (VFloat x)
          ∧ transaction !! "amount_max" = Some (VFloat y))
  ∨ (transaction !! "amount_min" = Some (VInt 0)
     ∧ transaction !! "amount_max" = Some (VInt 0)).




(** ** The rest of [fetch_13f.py] *)

(** [d[key] = v] on a dictionary kept with the order of its keys: the value
    of a key that is there is replaced in place, a new key goes last. *)
Fixpoint dict_setitem (key : string) (v : value) (d : list (string * value))
  : list (string * value) :=
  match d with
  | [] => [(key, v)]
  | (key', v') :: d' =>
      if String.eqb key' key then (key, v) :: d'
      else (key', v') :: dict_setitem key v d'
  end.

(** [v[i]] for an index [i >= 0]: an element of a list, a character of a
    string; a dictionary of a JSON document has no integer key. *)
Definition subscript (v : value) (i : nat) : result value :=
  match v with
  | VList l => getitem l i
  | VStr s =>
      match String.get i s with
      | Some c => Ok (VStr (String c EmptyString))
      | None => Raise IndexError
      end
  | VDict _ => Raise (KeyError (pretty i))
  | _ => Raise TypeError
  end.

Module fetch_13f.

(** [form == "13F-HR"] *)
Definition is_13f_hr (form : value) : bool :=
  match form with
  | VStr s => String.eqb s "13F-HR"
  | _ => false
  end.

(** The loop over [enumerate(forms)], from index [i] on: the index of the
    first form that is ["13F-HR"]. *)
Fixpoint find_13f (forms : list value) (i : nat) : option nat :=
  match forms with
  | [] => None
  | form :: rest => if is_13f_hr form then Some i else find_13f rest (S i)
  end.

(** The body of the [try] of [fetch_fund_13f], from the outcome [response]
    of the request and of [response.json()]. *)
Definition fetch_fund_13f_try (utcnow : datetime) (response : result value)
    (cik fund_name : string) : result (option (gmap string value)) :=
  data ← response;
  let recent_filings := safe_get data ["filings"; "recent"] (VDict ∅) in
  forms ← py_iter (safe_get recent_filings ["form"] (VList []));
  match find_13f forms 0 with
  | None => Ok None
  | Some f13_index =>
      filing_date ←
        subscript (safe_get recent_filings ["filingDate"] (VList [])) f13_index;
      period_end ←
        subscript (safe_get recent_filings ["reportDate"] (VList [])) f13_index;
      accession_number ←
        subscript (safe_get recent_filings ["accessionNumber"] (VList [])) f13_index;
      Ok (Some
        {[ "fund_info" := VDict
             {[ "name" := VStr fund_name;
                "cik" := VStr cik;
                "filing_date" := filing_date;
                "period_end" := period_end;
                "total_value" := VInt 0 ]};
           "metadata" := VDict (create_metadata utcnow
             {[ "holdings_count" := VInt 0;
                "accession_number" := accession_number ]});
           "holdings" := VList [] ]})
  end.

(** [fetch_fund_13f(cik, fund_name)]: [None] when the body raises. *)
Definition fetch_fund_13f (utcnow : datetime) (response : result value)
    (cik fund_name : string) : option (gmap string value) :=
  match fetch_fund_13f_try utcnow response cik fund_name with
  | Ok fund_data => fund_data
  | Raise _ => None
  end.

(** The loop of [fetch_all_priority_funds] over the items of
    [priority_funds] in their order; [responses cik] is what the request
    for [cik] answers and [utcnow cik] the clock when its filing is
    assembled.  The slug is derived before the fetch and outside any
    [try]. *)
Fixpoint priority_funds_loop (utcnow : string → datetime)
    (responses : string → result value)
    (priority_funds : list (string * string))
    (all_funds_data : list (string * value)) : result (list (string * value)) :=
  match priority_funds with
  | [] => Ok all_funds_data
  | (cik, fund_name) :: rest =>
      fund_slug ← _create_slug fund_name;
      let fund_data := fetch_fund_13f (utcnow cik) (responses cik) cik fund_name in
      priority_funds_loop utcnow responses rest
        match fund_data with
        | Some fund_data => dict_setitem fund_slug (VDict fund_data) all_funds_data
        | None => all_funds_data
        end
  end.

Definition fetch_all_priority_funds (utcnow : string → datetime)
    (responses : string → result value)
    (priority_funds : list (string * string)) : result (list (string * value)) :=
  priority_funds_loop utcnow responses priority_funds [].

(** [main()]: the exit status of the process; [priority_funds] are the
    items of the mapping [funds.priority_ciks] of the configuration. *)
Definition main `{Platform} (schema_dir : option (list (string * result value)))
    (environ : gmap string string) (priority_funds : list (string * string))
    (utcnow : string → datetime) (responses : string → result value)
    (sk : sink) : result nat * sink :=
  match utils.new_validator schema_dir with
  | Raise e => (Raise e, sk)
  | Ok validator =>
      match utils.get_secret environ "SEC_EDGAR_USER_AGENT" true with
      | Raise e => (Raise e, sk)
      | Ok user_agent =>
          match fetch_all_priority_funds utcnow responses priority_funds with
          | Raise e => (Raise e, sk)
          | Ok funds_data =>
              match funds_data with
              | [] => (Ok 1%nat, sk)
              | _ =>
                  match Fund13FFetcher.save_all validator funds_data sk with
                  | (Ok success, sk') => (Ok (exit_status success), sk')
                  | (Raise e, sk') => (Raise e, sk')
                  end
              end
          end
      end
  end.

End fetch_13f.

(** The path of the file of a fund. *)
Definition fund_path (fund_slug : string) : string :=
  "data/funds/" +:+ fund_slug +:+ ".json".

(** A fund document passes the schema of the 13F domain. *)
Definition passes `{Platform} (validator : DataValidator) (fund : string * value)
  : bool :=
  match validate validator fund.2 "fund_13f" with
  | Ok true => true
  | _ => false
  end.

(** The schema check of a fund document does not raise. *)
Definition checks `{Platform} (validator : DataValidator) (fund : string * value)
  : Prop :=
  ∃ b, validate validator fund.2 "fund_13f" = Ok b.

(** A schema library that accepts the documents with holdings, and a file
    system that takes every write. *)
Definition holdings_platform : Platform :=
  {| jsonschema_validate := fun data _ =>
       match data with
       | VDict d => if bool_decide (is_Some (d !! "holdings")) then Valid
                    else ValidationError "'holdings' is a required property"
       | _ => ValidationError "not an object"
       end;
     dump_succeeds := fun _ _ => true |}.

Definition fund_registry : DataValidator :=
  {| schemas := {[ "fund_13f" := VDict ∅ ]} |}.

Definition sample_funds : list (string * value) :=
  [ ("scion", VDict {[ "fund_info" := VDict ∅ ]});
    ("berkshire", VDict {[ "holdings" := VList [] ]}) ].

(** The columns of [filings.recent] in a response. *)
Definition recent_column (data : value) (column : string) : value :=
  safe_get (safe_get data ["filings"; "recent"] (VDict ∅)) [column] (VList []).

(** [k] is the index of the first form ["13F-HR"] of [forms]. *)
Definition first_13f_hr (forms : list value) (k : nat) : Prop :=
  (∃ form, forms !! k = Some form ∧ fetch_13f.is_13f_hr form = true)
  ∧ ∀ j form, (j < k)%nat → forms !! j = Some form →
      fetch_13f.is_13f_hr form = false.

(** A response of the SEC with three filings, the second and third of them
    13F-HR. *)
Definition sample_submissions : value :=
  VDict {[ "filings" := VDict {[ "recent" := VDict
    {[ "form" := VList [VStr "4"; VStr "13F-HR"; VStr "13F-HR"];
       "filingDate" := VList [VStr "2025-11-14"; VStr "2025-11-13"; VStr "2025-08-14"];
       "reportDate" := VList [VStr "2025-11-12"; VStr "2025-09-30"; VStr "2025-06-30"];
       "accessionNumber" := VList [VStr "a-3"; VStr "a-2"; VStr "a-1"] ]} ]} ]}.


(** The name of a fund is empty or white space only. *)
Definition blank_name (fund : string * string) : Prop :=
  Str.all Str.isspace fund.2 = true.

(** The SEC answers every request with the sample submissions. *)
Definition sample_responses (cik : string) : result value := Ok sample_submissions.

Definition tiger_funds : list (string * string) :=
  [ ("0001167483", "Tiger Global Management");
    ("0001027451", "Tiger Management LLC") ].

(** The variable [SEC_EDGAR_USER_AGENT] is set and not empty. *)
Definition has_user_agent (environ : gmap string string) : bool :=
  match environ !! "SEC_EDGAR_USER_AGENT" with
  | Some user_agent => negb (Str.is_empty user_agent)
  | None => false
  end.


(** Every file of the schema directory was parsed. *)
Definition parsed (schema_file : string * result value) : Prop :=
  ∃ schema, schema_file.2 = Ok schema.

Definition sample_environ : gmap string string :=
  {[ "SEC_EDGAR_USER_AGENT" := "research desk research@example.org" ]}.

Definition sample_schema_dir : list (string * result value) :=
  [ ("congress", Ok (VDict ∅)); ("fund_13f", Raise ValueError);
    ("insiders", Ok (VDict ∅)) ].

(** ** The rest of [fetch_macro.py] *)

(** What the macro script uses and does not define: Python's arithmetic
    on the values of a response, each of which raises on operands it does
    not take, and [datetime.fromtimestamp] in the local time zone. *)
Class Arithmetic : Type := {
  py_sub : value → value → result value;
  py_truediv : value → value → result value;
  py_mul : value → value → result value;
  fromtimestamp : value → result datetime
}.

(** [len(v)] *)
Definition py_len (v : value) : result nat :=
  match v with
  | VList l => Ok (length l)
  | VStr s => Ok (String.length s)
  | VDict d => Ok (size d)
  | _ => Raise TypeError
  end.

(** [v is None] *)
Definition is_none (v : value) : bool :=
  match v with VNone => true | _ => false end.

Module fetch_macro.

(** The body of the [try] of [fetch_yahoo_quote], from the outcome
    [response] of the request and of [response.json()]; [now] is the
    local clock when the quote is assembled. *)
Definition fetch_yahoo_quote_try `{Arithmetic} (now : datetime)
    (response : result value) (symbol : string)
  : result (option (gmap string value)) :=
  data ← response;
  let result := safe_get data ["chart"; "result"] (VList []) in
  if negb (truthy result) then Ok None
  else
    first ← subscript result 0;
    let meta := safe_get first ["meta"] (VDict ∅) in
    let current_price := safe_get meta ["regularMarketPrice"] (VInt 0) in
    let previous_close := safe_get meta ["previousClose"] (VInt 0) in
    change ← (if truthy previous_close
              then py_sub current_price previous_close
              else Ok (VInt 0));
    change_pct ← (if truthy previous_close
                  then quotient ← py_truediv change previous_close;
                       py_mul quotient (VInt 100)
                  else Ok (VInt 0));
    Ok (Some {[ "symbol" := VStr symbol;
                "price" := current_price;
                "previous_close" := previous_close;
                "change" := change;
                "change_pct" := change_pct;
                "timestamp" := VStr (isoformat now) ]}).

(** [fetch_yahoo_quote(symbol)]: [None] when the body raises. *)
Definition fetch_yahoo_quote `{Arithmetic} (now : datetime)
    (response : result value) (symbol : string) : option (gmap string value) :=
  match fetch_yahoo_quote_try now response symbol with
  | Ok quote => quote
  | Raise _ => None
  end.

(** The loop of [fetch_yahoo_history] over [enumerate(timestamps)], from
    index [i] on. *)
Fixpoint history_loop `{Arithmetic} (timestamps : list value) (closes : value)
    (i : nat) (history : list (gmap string value))
  : result (list (gmap string value)) :=
  match timestamps with
  | [] => Ok history
  | ts :: rest =>
      n ← py_len closes;
      if (i <? n)%nat then
        close ← subscript closes i;
        if is_none close then history_loop rest closes (S i) history
        else
          date ← fromtimestamp ts;
          history_loop rest closes (S i)
            (history ++ [ {[ "date" := VStr (strftime_ymd date);
                             "value" := close ]} ])
      else history_loop rest closes (S i) history
  end.

(** The body of the [try] of [fetch_yahoo_history]. *)
Definition fetch_yahoo_history_try `{Arithmetic} (response : result value)
  : result (list (gmap string value)) :=
  data ← response;
  let result := safe_get data ["chart"; "result"] (VList []) in
  if negb (truthy result) then Ok []
  else
    first ← subscript result 0;
    let timestamps := safe_get first ["timestamp"] (VList []) in
    let quotes := safe_get first ["indicators"; "quote"] (VList []) in
    if negb (truthy quotes) then Ok []
    else
      quote ← subscript quotes 0;
      let closes := safe_get quote ["close"] (VList []) in
      timestamps ← py_iter timestamps;
      history_loop timestamps closes 0 [].

(** [fetch_yahoo_history(symbol, days)]: the empty list when the body
    raises. *)
Definition fetch_yahoo_history `{Arithmetic} (response : result value)
  : list (gmap string value) :=
  match fetch_yahoo_history_try response with
  | Ok history => history
  | Raise _ => []
  end.

(** [calculate_spread_2s10s(us2y, us10y)] on the prices of two quotes. *)
Definition calculate_spread_2s10s `{Arithmetic} (us2y us10y : value)
  : result value :=
  py_sub us10y us2y.

(** The items of [symbol_map], in its order. *)
Definition symbol_map : list (string * string) :=
  [ ("^TNX", "US10Y"); ("^IRX", "US2Y"); ("DX-Y.NYB", "DXY"); ("^VIX", "VIX");
    ("GC=F", "gold"); ("CL=F", "oil"); ("HG=F", "copper") ].

(** The category under which [fetch_all] files a name. *)
Definition category (our_name : string) : string :=
  if bool_decide (our_name ∈ ["US2Y"; "US10Y"]) then "yields"
  else if String.eqb our_name "DXY" then "currencies"
  else if String.eqb our_name "VIX" then "volatility"
  else "commodities".

(** [indicators[category][our_name] = value] *)
Definition set_indicator (category our_name : string) (v : value)
    (indicators : gmap string (gmap string value))
  : result (gmap string (gmap string value)) :=
  match indicators !! category with
  | Some entries => Ok (<[category := <[our_name := v]> entries]> indicators)
  | None => Raise (KeyError category)
  end.

(** The loop of [fetch_all] over the items of the symbol map;
    [quote_response] and [history_response] are what the two requests for
    a symbol answer.  A quote that was fetched has six keys and is true in
    a condition. *)
Fixpoint fetch_symbols `{Arithmetic} (now : string → datetime)
    (quote_response history_response : string → result value)
    (symbols : list (string * string))
    (indicators : gmap string (gmap string value)) (history : gmap string value)
  : result (gmap string (gmap string value) * gmap string value) :=
  match symbols with
  | [] => Ok (indicators, history)
  | (yahoo_symbol, our_name) :: rest =>
      let quote := fetch_yahoo_quote (now yahoo_symbol)
                     (quote_response yahoo_symbol) yahoo_symbol in
      indicators ← match quote with
                   | Some quote =>
                       v ← dict_getitem quote "price";
                       set_indicator (category our_name) our_name v indicators
                   | None => Ok indicators
                   end;
      let hist := fetch_yahoo_history (history_response yahoo_symbol) in
      fetch_symbols now quote_response history_response rest indicators
        match hist with
        | [] => history
        | _ => <[our_name := VList (VDict <$> hist)]> history
        end
  end.

Definition fetch_all `{Arithmetic} (utcnow : datetime) (now : string → datetime)
    (quote_response history_response : string → result value)
  : result (gmap string value) :=
  let indicators : gmap string (gmap string value) :=
    {[ "yields" := ∅; "currencies" := ∅; "volatility" := ∅;
       "commodities" := ∅ ]} in
  fetched ← fetch_symbols now quote_response history_response symbol_map
              indicators ∅;
  let indicators := fetched.1 in
  let history := fetched.2 in
  yields ← match indicators !! "yields" with
           | Some yields => Ok yields
           | None => Raise (KeyError "yields")
           end;
  indicators ←
    match yields !! "US2Y", yields !! "US10Y" with
    | Some us2y, Some us10y =>
        spread ← calculate_spread_2s10s us2y us10y;
        set_indicator "yields" "spread_2s10s" spread indicators
    | _, _ => Ok indicators
    end;
  Ok {[ "metadata" := VDict (create_metadata utcnow ∅);
        "indicators" := VDict (VDict <$> indicators);
        "history" := VDict history ]}.

(** [main()]: the exit status of the process. *)
Definition main `{Platform} `{Arithmetic}
    (schema_dir : option (list (string * result value)))
    (utcnow : datetime) (now : string → datetime)
    (quote_response history_response : string → result value) (sk : sink)
  : result nat * sink :=
  match utils.new_validator schema_dir with
  | Raise e => (Raise e, sk)
  | Ok validator =>
      match fetch_all utcnow now quote_response history_response with
      | Raise e => (Raise e, sk)
      | Ok data =>
          match dict_getitem data "indicators" with
          | Raise e => (Raise e, sk)
          | Ok indicators =>
              if truthy indicators then
                match MacroDataFetcher.save validator (VDict data)
                        "data/macro/indicators.json" sk with
                | (Ok success, sk') => (Ok (exit_status success), sk')
                | (Raise e, sk') => (Raise e, sk')
                end
              else (Ok 1%nat, sk)
          end
      end
  end.

End fetch_macro.

(** The first element of [chart.result] of a response, and its [meta]. *)
Definition chart_result (data : value) : value :=
  safe_get data ["chart"; "result"] (VList []).

Definition quote_meta (first : value) : value :=
  safe_get first ["meta"] (VDict ∅).




(** Arithmetic on whole numbers, and the conversion of the time stamps of
    January 1970 in UTC; this sample refuses every other operand (with
    [ValueError] where Python has an exception that the scripts do not
    name: every caller catches them all). *)
Definition whole_arithmetic : Arithmetic :=
  {| py_sub := fun a b =>
       match a, b with
       | VInt x, VInt y => Ok (VInt (x - y))
       | _, _ => Raise TypeError
       end;
     py_truediv := fun a b =>
       match a, b with
       | VInt x, VInt y =>
           if Z.eqb y 0 then Raise ValueError
           else Ok (VFloat (Finite (inject_Z x / inject_Z y)))
       | _, _ => Raise TypeError
       end;
     py_mul := fun a b =>
       match a, b with
       | VInt x, VInt y => Ok (VInt (x * y))
       | VFloat (Finite x), VInt y => Ok (VFloat (Finite (x * inject_Z y)))
       | _, _ => Raise TypeError
       end;
     fromtimestamp := fun ts =>
       match ts with
       | VInt t =>
           if (Z.leb 0 t && Z.ltb t (31 * 86400))%bool then
             Ok {| year := 1970; month := 1;
                   day := S (Z.to_nat (t / 86400));
                   hour := Z.to_nat (t mod 86400 / 3600);
                   minute := Z.to_nat (t mod 3600 / 60);
                   second := Z.to_nat (t mod 60);
                   microsecond := 0 |}
           else Raise ValueError
       | _ => Raise TypeError
       end |}.

(** The price and the previous close that a quote reads. *)
Definition market_price (first : value) : value :=
  safe_get (quote_meta first) ["regularMarketPrice"] (VInt 0).

Definition previous_close (first : value) : value :=
  safe_get (quote_meta first) ["previousClose"] (VInt 0).

(** The quote assembled from its parts. *)
Definition quote_of (symbol : string) (first change change_pct : value)
    (now : datetime) : gmap string value :=
  {[ "symbol" := VStr symbol;
     "price" := market_price first;
     "previous_close" := previous_close first;
     "change" := change;
     "change_pct" := change_pct;
     "timestamp" := VStr (isoformat now) ]}.




(** A response with a price and no previous close. *)
Definition sample_quote_response : value :=
  VDict {[ "chart" := VDict {[ "result" := VList
    [ VDict {[ "meta" := VDict {[ "regularMarketPrice" := VInt 42 ]} ]} ] ]} ]}.

(** A response with three days of history, the second without a close. *)
Definition sample_history_response : value :=
  VDict {[ "chart" := VDict {[ "result" := VList
    [ VDict {[ "timestamp" := VList [VInt 0; VInt 86400; VInt 172800];
               "indicators" := VDict {[ "quote" := VList
                 [ VDict {[ "close" := VList [VInt 10; VNone; VInt 12] ]} ] ]} ]} ] ]} ]}.













(** ** The rest of [fetch_insiders.py], [fetch_flows.py] and
    [fetch_sentiment.py] *)

Module fetch_insiders.

Definition john_smith : gmap string value :=
  {[ "insider_name" := VStr "John Smith"; "insider_title" := VStr "CEO";
     "company" := VStr "Tech Corp"; "ticker" := VStr "TECH";
     "transaction_type" := VStr "BUY"; "shares" := VInt 10000;
     "price_per_share" := VFloat (Finite 150.50); "value" := VInt 1505000;
     "shares_owned_after" := VInt 250000; "date" := VStr "2025-11-10";
     "filing_date" := VStr "2025-11-12";
     "form_url" :=
       VStr "https://www.sec.gov/cgi-bin/browse-edgar?action=getcompany&CIK=..." ]}.

Definition jane_doe : gmap string value :=
  {[ "insider_name" := VStr "Jane Doe"; "insider_title" := VStr "CFO";
     "company" := VStr "Finance Inc"; "ticker" := VStr "FIN";
     "transaction_type" := VStr "SELL"; "shares" := VInt 5000;
     "price_per_share" := VFloat (Finite 85.25); "value" := VInt 426250;
     "shares_owned_after" := VInt 50000; "date" := VStr "2025-11-11";
     "filing_date" := VStr "2025-11-13";
     "form_url" :=
       VStr "https://www.sec.gov/cgi-bin/browse-edgar?action=getcompany&CIK=..." ]}.

Definition _generate_sample_transactions : list (gmap string value) :=
  [ john_smith; jane_doe ].

(** [fetch_recent_form4(days_back)]: the samples; the dates computed
    before them are not used. *)
Definition fetch_recent_form4 (days_back : nat) : list (gmap string value) :=
  _generate_sample_transactions.

Definition fetch_all (utcnow : datetime) : result (gmap string value) :=
  InsiderDataFetcher.fetch_all utcnow (fetch_recent_form4 30).

(** [main()]: the exit status of the process. *)
Definition main `{Platform} (schema_dir : option (list (string * result value)))
    (environ : gmap string string) (utcnow : datetime) (sk : sink)
  : result nat * sink :=
  match utils.new_validator schema_dir with
  | Raise e => (Raise e, sk)
  | Ok validator =>
      match utils.get_secret environ "SEC_EDGAR_USER_AGENT" true with
      | Raise e => (Raise e, sk)
      | Ok user_agent =>
          match fetch_all utcnow with
          | Raise e => (Raise e, sk)
          | Ok data =>
              match dict_getitem data "transactions" with
              | Raise e => (Raise e, sk)
              | Ok transactions =>
                  if truthy transactions then
                    match InsiderDataFetcher.save validator (VDict data)
                            "data/insiders/latest.json" sk with
                    | (Ok success, sk') => (Ok (exit_status success), sk')
                    | (Raise e, sk') => (Raise e, sk')
                    end
                  else (Ok 1%nat, sk)
              end
          end
      end
  end.

End fetch_insiders.

Module fetch_flows.

(** [main()]: the exit status of the process. *)
Definition main `{Platform} (schema_dir : option (list (string * result value)))
    (utcnow : datetime) (now : nat → datetime) (sk : sink) : result nat * sink :=
  match utils.new_validator schema_dir with
  | Raise e => (Raise e, sk)
  | Ok validator =>
      let data := FlowDataFetcher.fetch_all utcnow now in
      if truthy (VDict data) then
        match FlowDataFetcher.save validator (VDict data)
                "data/flows/latest.json" sk with
        | (Ok success, sk') => (Ok (exit_status success), sk')
        | (Raise e, sk') => (Raise e, sk')
        end
      else (Ok 1%nat, sk)
  end.

End fetch_flows.

Module fetch_sentiment.

(** [main()]: the exit status of the process. *)
Definition main `{Platform} (schema_dir : option (list (string * result value)))
    (utcnow now : datetime) (sk : sink) : result nat * sink :=
  match utils.new_validator schema_dir with
  | Raise e => (Raise e, sk)
  | Ok validator =>
      let data := SentimentDataFetcher.fetch_all utcnow now in
      if truthy (VDict data) then
        match SentimentDataFetcher.save validator (VDict data)
                "data/sentiment/latest.json" sk with
        | (Ok success, sk') => (Ok (exit_status success), sk')
        | (Raise e, sk') => (Raise e, sk')
        end
      else (Ok 1%nat, sk)
  end.

End fetch_sentiment.

(** The document of the insiders: the two samples, the later one first. *)
Definition insiders_document (utcnow : datetime) : gmap string value :=
  {[ "metadata" := VDict (create_metadata utcnow {[ "total_count" := VInt 2 ]});
     "transactions" := VList [ VDict fetch_insiders.jane_doe;
                               VDict fetch_insiders.john_smith ] ]}.

(** What a script that writes one document leaves: the exit status and
    the call of the writer. *)
Definition written_once `{Platform} (document : value) (output_path : string)
    (sk : sink) : result nat * sink :=
  (Ok (exit_status (dump_succeeds document output_path)),
   sk ++ [call_of document output_path]).

(** A schema directory with a file that does not parse. *)
Definition broken_schema_dir : option (list (string * result value)) :=
  Some [("congress", Raise ValueError)].

(** * Properties of the scripts *)

(** ** Strings *)

Section StrFacts.


Lemma str_app_assoc (a b c : string) : (a +:+ b) +:+ c = a +:+ b +:+ c.
Proof. induction a as [|x a IH]; simpl; [reflexivity | now rewrite IH]. Qed.

Lemma str_length_app (a b : string) :
  String.length (a +:+ b) = (String.length a + String.length b)%nat.
Proof. induction a as [|x a IH]; simpl; [reflexivity | now rewrite IH]. Qed.

Lemma str_map_app (f : ascii → ascii) (a b : string) :
  Str.map f (a +:+ b) = Str.map f a +:+ Str.map f b.
Proof. induction a as [|x a IH]; simpl; [reflexivity | now rewrite IH]. Qed.

(** A split of the image of [s] under [Str.map] comes from a split of [s]. *)
Lemma str_map_app_inv (f : ascii → ascii) (s a b : string) :
  Str.map f s = a +:+ b →
  ∃ s1 s2, s = s1 +:+ s2 ∧ Str.map f s1 = a ∧ Str.map f s2 = b.
Proof.
  revert s; induction a as [|x a IH]; intros s E.
  - exists EmptyString, s. auto.
  - destruct s as [|c s]; simpl in E; [discriminate|].
    injection E as Ec Es. destruct (IH _ Es) as (s1 & s2 & -> & E1 & E2).
    exists (String c s1), s2. simpl. now rewrite Ec, E1, E2.
Qed.

Lemma prefix_spec (p s : string) :
  String.prefix p s = true ↔ ∃ post, s = p +:+ post.
Proof.
  revert s; induction p as [|c p IH]; intros s.
  - split; [exists s; reflexivity | intros _; destruct s; reflexivity].
  - destruct s as [|d s]; simpl.
    + split; [discriminate | intros [post E]; discriminate].
    + destruct (ascii_dec c d) as [->|Hne].
      * rewrite IH. split; intros [post E]; exists post; [now rewrite E | now injection E].
      * split; [discriminate | intros [post E]; injection E as E1 _; congruence].
Qed.

Lemma contains_cons (needle : string) (c : ascii) (s : string) :
  Str.contains needle (String c s)
  = String.prefix needle (String c s) || Str.contains needle s.
Proof. reflexivity. Qed.

Lemma contains_nil (needle : string) :
  Str.contains needle EmptyString = String.prefix needle EmptyString.
Proof. apply orb_false_r. Qed.

Lemma contains_spec (needle s : string) :
  Str.contains needle s = true ↔ substring_of needle s.
Proof.
  unfold substring_of. induction s as [|c s IH].
  - rewrite contains_nil, prefix_spec. split.
    + intros [post E]. exists EmptyString, post. exact E.
    + intros (pre & post & E). destruct pre; simpl in E.
      * exists post; exact E.
      * discriminate.
  - rewrite contains_cons, orb_true_iff, prefix_spec, IH. split.
    + intros [[post E] | (pre & post & E)].
      * exists EmptyString, post. exact E.
      * exists (String c pre), post. simpl. now rewrite E.
    + intros (pre & post & E). destruct pre as [|d pre]; simpl in E.
      * left. exists post. exact E.
      * right. injection E as _ E. exists pre, post. exact E.
Qed.

(** The test of the source, [needle in raw.lower()], finds an occurrence
    whatever its case: [needle] is in lower case at every call. *)
Lemma contains_lower_spec (needle s : string) :
  Str.contains needle (Str.lower s) = true ↔ occurs_ignoring_case needle s.
Proof.
  rewrite contains_spec. unfold substring_of, occurs_ignoring_case, Str.lower. split.
  - intros (pre & post & E).
    destruct (str_map_app_inv _ _ _ _ E) as (s1 & s2 & -> & E1 & E2).
    destruct (str_map_app_inv _ _ _ _ E2) as (s3 & s4 & -> & E3 & E4).
    exists s1, s3, s4. auto.
  - intros (pre & mid & post & -> & E).
    exists (Str.map Str.lower_char pre), (Str.map Str.lower_char post).
    now rewrite !str_map_app, E.
Qed.

End StrFacts.

(** ** Transaction types *)

(** C5: [_normalize_transaction_type] is total on strings and returns one
    of purchase, sale, exchange by a case-insensitive substring match:
    purchase when the text mentions "purchase" or "buy"; otherwise sale
    when it mentions "sale" or "sell"; otherwise exchange when it mentions
    "exchange"; otherwise, and on the empty string, the default
    purchase. *)
Theorem normalize_transaction_type_total (raw_type : string) :
  (_normalize_transaction_type raw_type = "purchase"
   ∨ _normalize_transaction_type raw_type = "sale"
   ∨ _normalize_transaction_type raw_type = "exchange")
  ∧ (mentions_purchase raw_type →
     _normalize_transaction_type raw_type = "purchase")
  ∧ (¬ mentions_purchase raw_type → mentions_sale raw_type →
     _normalize_transaction_type raw_type = "sale")
  ∧ (¬ mentions_purchase raw_type → ¬ mentions_sale raw_type →
     mentions_exchange raw_type →
     _normalize_transaction_type raw_type = "exchange")
  ∧ (¬ mentions_purchase raw_type → ¬ mentions_sale raw_type →
     ¬ mentions_exchange raw_type →
     _normalize_transaction_type raw_type = "purchase")
  ∧ _normalize_transaction_type EmptyString = "purchase".
Proof.
  unfold mentions_purchase, mentions_sale, mentions_exchange.
  rewrite <- !contains_lower_spec. unfold _normalize_transaction_type.
  destruct (Str.contains "purchase" _) eqn:P, (Str.contains "buy" _) eqn:B,
    (Str.contains "sale" _) eqn:S, (Str.contains "sell" _) eqn:L,
    (Str.contains "exchange" _) eqn:X; simpl;
    repeat split; auto; intros; try tauto;
    repeat match goal with
           | H : ¬ _ |- _ => exfalso; apply H; auto
           | H : _ ∨ _ |- _ => destruct H
           end; try discriminate.
Qed.

(** C5 at a concrete text: a partial sale is a sale. *)
Lemma normalize_transaction_type_witness :
  _normalize_transaction_type "Sale (Partial)" = "sale".
Proof.
  destruct (normalize_transaction_type_total "Sale (Partial)") as (_ & _ & H & _).
  apply H.
  - unfold mentions_purchase. rewrite <- !contains_lower_spec.
    vm_compute. intros [E | E]; discriminate E.
  - left. exists EmptyString, "Sale", " (Partial)". split; reflexivity.
Defined.

(** ** Slugs *)

Section SlugFacts.








End SlugFacts.

Section FirstWord.


Lemma all_app (p : ascii → bool) (a b : string) :
  Str.all p (a +:+ b) = Str.all p a && Str.all p b.
Proof. induction a as [|x a IH]; simpl; [reflexivity | now rewrite IH, andb_assoc]. Qed.







End FirstWord.






(** ** Amount ranges *)

Section AmountFacts.



















End AmountFacts.

(** ** White space around a number *)

Section FloatFacts.






















End FloatFacts.




(** ** Metadata *)

Section MetadataFacts.

Lemma isdigit_of_digit (d : nat) :
  (d < 10)%nat → Str.isdigit (ascii_of_nat (48 + d)) = true.
Proof.
  intros H. do 10 (destruct d as [|d]; [reflexivity|]). lia.
Qed.

Lemma zero_padded_digits (width n : nat) :
  digits_of_width width (Str.zero_padded width n).
Proof.
  unfold digits_of_width. revert n; induction width as [|w IH]; intros n;
    cbn [Str.zero_padded].
  - auto.
  - destruct (IH (n / 10)%nat) as [L D]. rewrite str_length_app, all_app, L, D.
    cbn [String.length Str.all].
    split; [lia|]. rewrite andb_true_r. apply isdigit_of_digit.
    apply Nat.mod_upper_bound. lia.
Qed.

(** The digits written are those of the field, when it fits the width. *)
Lemma digits_value_app (acc : Z) (a b : string) :
  Float.digits_value acc (a +:+ b) = Float.digits_value (Float.digits_value acc a) b.
Proof. revert acc; induction a as [|x a IH]; intros acc; simpl; [reflexivity | apply IH]. Qed.

Lemma zero_padded_value (width n : nat) :
  (n < 10 ^ width)%nat →
  Float.digits_value 0 (Str.zero_padded width n) = Z.of_nat n.
Proof.
  revert n; induction width as [|w IH]; intros n H; cbn [Str.zero_padded].
  - simpl in H. assert (n = 0%nat) as -> by lia. reflexivity.
  - rewrite digits_value_app, IH.
    + cbn [Float.digits_value]. assert (n mod 10 < 10)%nat as Hm by (apply Nat.mod_upper_bound; lia).
      rewrite nat_ascii_embedding by lia.
      rewrite (Nat.div_mod_eq n 10) at 3. lia.
    + apply Nat.Div0.div_lt_upper_bound. rewrite Nat.pow_succ_r' in H. lia.
Qed.

Lemma get_timestamp_shape (utcnow : datetime) : iso8601_utc (get_timestamp utcnow).
Proof.
  unfold iso8601_utc, get_timestamp, isoformat, strftime_ymd.
  exists (Str.zero_padded 4 (year utcnow)), (Str.zero_padded 2 (month utcnow)),
    (Str.zero_padded 2 (day utcnow)), (Str.zero_padded 2 (hour utcnow)),
    (Str.zero_padded 2 (minute utcnow)), (Str.zero_padded 2 (second utcnow)),
    (if Nat.eqb (microsecond utcnow) 0 then EmptyString
     else "." +:+ Str.zero_padded 6 (microsecond utcnow)).
  split; [now rewrite !str_app_assoc|].
  repeat (split; [apply zero_padded_digits|]).
  destruct (Nat.eqb _ _); [now left | right; eexists; split; [reflexivity|]].
  apply zero_padded_digits.
Qed.

Lemma create_metadata_lookup_last_updated (utcnow : datetime)
    (keywords : gmap string value) :
  create_metadata utcnow keywords !! "last_updated"
  = Some (dict_get keywords "last_updated" (VStr (get_timestamp utcnow))).
Proof.
  unfold create_metadata, dict_get.
  destruct (keywords !! "last_updated") as [v|] eqn:E; simpl.
  - apply lookup_union_Some_l. now rewrite lookup_delete_ne.
  - rewrite lookup_union_r by now rewrite lookup_delete_ne.
    apply lookup_insert_eq.
Qed.

Lemma create_metadata_lookup_total_count (utcnow : datetime)
    (keywords : gmap string value) :
  create_metadata utcnow keywords !! "total_count"
  = Some (dict_get keywords "total_count" (VInt 0)).
Proof.
  unfold create_metadata. rewrite lookup_union_r by apply lookup_delete_eq.
  rewrite lookup_insert_ne by done. apply lookup_singleton_eq.
Qed.

Lemma create_metadata_lookup_extra (utcnow : datetime)
    (keywords : gmap string value) (key : string) :
  key ≠ "last_updated" → key ≠ "total_count" →
  create_metadata utcnow keywords !! key = keywords !! key.
Proof.
  intros H1 H2. unfold create_metadata.
  rewrite lookup_union_l; [now apply lookup_delete_ne|].
  rewrite lookup_insert_ne by done. now apply lookup_singleton_ne.
Qed.

End MetadataFacts.

(** C2, as the code has it: the metadata's [last_updated] is the UTC clock
    reading in ISO-8601 with a trailing [Z] for every call that passes no
    keyword of that name; a keyword [last_updated] of the caller replaces
    it; the other keywords do not touch it. *)
Theorem create_metadata_last_updated (utcnow : datetime)
    (keywords : gmap string value) :
  (keywords !! "last_updated" = None →
   create_metadata utcnow keywords !! "last_updated"
   = Some (VStr (get_timestamp utcnow)))
  ∧ (∀ v, keywords !! "last_updated" = Some v →
     create_metadata utcnow keywords !! "last_updated" = Some v)
  ∧ iso8601_utc (get_timestamp utcnow)
  ∧ get_timestamp utcnow = isoformat utcnow +:+ "Z".
Proof.
  rewrite create_metadata_lookup_last_updated. unfold dict_get. repeat split.
  - now intros ->.
  - now intros v ->.
  - apply get_timestamp_shape.
Qed.

Lemma create_metadata_last_updated_witness :
  create_metadata sample_clock
    {[ "total_count" := VInt 7; "house_count" := VInt 7 ]} !! "last_updated"
  = Some (VStr "2025-11-16T08:30:05Z").
Proof.
  destruct (create_metadata_last_updated sample_clock
              {[ "total_count" := VInt 7; "house_count" := VInt 7 ]}) as [H _].
  apply H. reflexivity.
Defined.

(** C2 as stated fails for a caller that passes a keyword [last_updated]:
    the result carries the caller's value, not the stamp. *)
Lemma create_metadata_last_updated_overridden :
  create_metadata sample_clock
    {[ "total_count" := VInt 7; "last_updated" := VStr "1999-12-31" ]}
    !! "last_updated"
  = Some (VStr "1999-12-31")
  ∧ get_timestamp sample_clock = "2025-11-16T08:30:05Z".
Proof. split; reflexivity. Qed.

(** ** The Schema Registry *)

(** C6: for a schema name that is not registered, [DataValidator.validate]
    returns [False] without raising, whatever the document. *)
Theorem validate_unregistered `{Platform} (self : DataValidator)
    (data : value) (schema_name : string) :
  schemas self !! schema_name = None →
  validate self data schema_name = Ok false.
Proof. intros E. unfold validate. now rewrite E. Qed.

Lemma validate_unregistered_witness :
  @validate permissive_platform congress_only sample_flows_document "flows"
  = Ok false.
Proof.
  apply (@validate_unregistered permissive_platform congress_only
           sample_flows_document "flows").
  reflexivity.
Defined.

(** A document validates only against a registered schema that accepts it. *)
Lemma validate_true `{Platform} (self : DataValidator) (data : value)
    (schema_name : string) :
  validate self data schema_name = Ok true ↔
  ∃ schema, schemas self !! schema_name = Some schema
            ∧ jsonschema_validate data schema = Valid.
Proof.
  unfold validate. destruct (schemas self !! schema_name) as [schema|].
  - destruct (jsonschema_validate data schema) eqn:J; split;
      try discriminate; eauto; intros (s & [= <-] & J'); congruence.
  - split; [discriminate | intros (s & E & _); discriminate].
Qed.

(** ** Validate, then write *)

Section SaveFacts.
Context `{Platform}.

Lemma validate_and_write_spec (validator : DataValidator) (schema_name : string)
    (data : value) (output_path : string) (sk : sink) :
  validate_and_write validator schema_name data output_path sk
  = match validate validator data schema_name with
    | Ok true => (Ok (dump_succeeds data output_path),
                  sk ++ [call_of data output_path])
    | Ok false => (Ok false, sk)
    | Raise e => (Raise e, sk)
    end.
Proof.
  unfold validate_and_write.
  destruct (validate validator data schema_name) as [[|]|e]; reflexivity.
Qed.

(** The loop of [save_all]: every call of the writer it adds is for a fund
    of the dictionary whose document validated, and it reports success only
    when every document validated and every write succeeded. *)
Lemma save_all_from_spec (validator : DataValidator)
    (funds_data : list (string * value)) :
  ∀ (all_success : bool) (sk : sink) (r : result bool) (sk' : sink),
  Fund13FFetcher.save_all_from validator all_success funds_data sk = (r, sk') →
  ∃ new, sk' = sk ++ new
    ∧ Forall (fun call =>
        validate validator (written_data call) "fund_13f" = Ok true
        ∧ ∃ fund_slug, (fund_slug, written_data call) ∈ funds_data
            ∧ written_path call = "data/funds/" +:+ fund_slug +:+ ".json") new
    ∧ (r = Ok true →
       all_success = true
       ∧ Forall (fun fund => validate validator fund.2 "fund_13f" = Ok true)
           funds_data
       ∧ Forall (fun call => written_ok call = true) new).
Proof.
  induction funds_data as [|[fund_slug fund_data] rest IH];
    intros all_success sk r sk'; simpl.
  - intros [= <- <-]. exists []. rewrite app_nil_r.
    repeat split; auto. congruence.
  - destruct (validate validator fund_data "fund_13f") as [[|]|e] eqn:V.
    + intros E. apply IH in E as (new & -> & Hnew & Hok).
      exists (call_of fund_data ("data/funds/" +:+ fund_slug +:+ ".json") :: new).
      split; [now rewrite <- app_assoc|]. split.
      * constructor.
        -- split; [exact V|]. exists fund_slug. split; [left | reflexivity].
        -- eapply Forall_impl; [exact Hnew|]. intros call (Hv & slug & Hin & Hp).
           split; [exact Hv|]. exists slug. split; [now right | exact Hp].
      * intros Hr. destruct (Hok Hr) as (Hs & Hall & Hw). simpl.
        destruct (dump_succeeds fund_data _) eqn:D; [|discriminate].
        split; [exact Hs|]. split; constructor; assumption.
    + intros E. apply IH in E as (new & -> & Hnew & Hok).
      exists new. split; [reflexivity|]. split.
      * eapply Forall_impl; [exact Hnew|]. intros call (Hv & slug & Hin & Hp).
        split; [exact Hv|]. exists slug. split; [now right | exact Hp].
      * intros Hr. destruct (Hok Hr) as (Hs & _). discriminate.
    + intros [= <- <-]. exists []. rewrite app_nil_r.
      repeat split; auto; discriminate.
Qed.

End SaveFacts.

(** C1, as the code has it: the [save] of the congress, insiders and macro
    fetchers validates the document against the schema of the domain first;
    a document that fails is not passed to the writer and [save] returns
    [False]; a document that passes is written.  [save_all] of the 13F
    fetcher writes the documents that passed and no other, and returns
    [False] when one failed.  The [save] of the flows and sentiment
    fetchers validates nothing: it writes the document. *)
Theorem save_validates_where_a_schema_is_named `{Platform}
    (validator : DataValidator) (data : value) (output_path : string)
    (sk : sink) :
  (validate validator data "congress" = Ok false →
   CongressDataFetcher.save validator data output_path sk = (Ok false, sk))
  ∧ (validate validator data "insiders" = Ok false →
     InsiderDataFetcher.save validator data output_path sk = (Ok false, sk))
  ∧ (validate validator data "macro" = Ok false →
     MacroDataFetcher.save validator data output_path sk = (Ok false, sk))
  ∧ (validate validator data "congress" = Ok true →
     CongressDataFetcher.save validator data output_path sk
     = (Ok (dump_succeeds data output_path), sk ++ [call_of data output_path]))
  ∧ (validate validator data "insiders" = Ok true →
     InsiderDataFetcher.save validator data output_path sk
     = (Ok (dump_succeeds data output_path), sk ++ [call_of data output_path]))
  ∧ (validate validator data "macro" = Ok true →
     MacroDataFetcher.save validator data output_path sk
     = (Ok (dump_succeeds data output_path), sk ++ [call_of data output_path]))
  ∧ (∀ funds_data r sk',
     Fund13FFetcher.save_all validator funds_data sk = (r, sk') →
     ∃ new, sk' = sk ++ new
       ∧ Forall (fun call =>
           validate validator (written_data call) "fund_13f" = Ok true) new
       ∧ (Exists (fun fund => validate validator fund.2 "fund_13f" = Ok false)
            funds_data → r ≠ Ok true))
  ∧ FlowDataFetcher.save validator data output_path sk
    = (Ok (dump_succeeds data output_path), sk ++ [call_of data output_path])
  ∧ SentimentDataFetcher.save validator data output_path sk
    = (Ok (dump_succeeds data output_path), sk ++ [call_of data output_path]).
Proof.
  unfold CongressDataFetcher.save, InsiderDataFetcher.save, MacroDataFetcher.save.
  rewrite !validate_and_write_spec.
  repeat (split; [now intros -> |]).
  split; [|split; reflexivity].
  intros funds_data r sk' E.
  apply save_all_from_spec in E as (new & -> & Hnew & Hok).
  exists new. split; [reflexivity|]. split.
  - eapply Forall_impl; [exact Hnew|]. now intros call [Hv _].
  - intros Hex Hr. destruct (Hok Hr) as (_ & Hall & _).
    apply Exists_exists in Hex as (fund & Hin & Hf).
    rewrite Forall_forall in Hall. specialize (Hall fund Hin). congruence.
Qed.

Lemma save_validates_witness :
  @CongressDataFetcher.save rejecting_platform congress_only
     sample_flows_document "data/congress/all.json" []
  = (Ok false, []).
Proof.
  apply (@save_validates_where_a_schema_is_named rejecting_platform
           congress_only sample_flows_document "data/congress/all.json" []).
  reflexivity.
Defined.

(** C1 as stated fails for the flows fetcher: a document that the registry
    rejects under the schema of its domain is written all the same. *)
Lemma flows_save_writes_rejected_document :
  @validate rejecting_platform with_flows_schema sample_flows_document "flows"
  = Ok false
  ∧ @FlowDataFetcher.save rejecting_platform with_flows_schema
      sample_flows_document "data/flows/latest.json" []
    = (Ok true, [ {| written_data := sample_flows_document;
                     written_path := "data/flows/latest.json";
                     written_ok := true |} ]).
Proof. split; reflexivity. Qed.

(** ** Record counts *)

Section CountFacts.


(** The congress document counts the transactions it carries. *)
Lemma congress_total_count (utcnow : datetime)
    (house_transactions senate_transactions : list (gmap string value))
    (document : gmap string value) :
  CongressDataFetcher.fetch_all utcnow house_transactions senate_transactions
  = Ok document →
  ∃ metadata transactions,
    document !! "metadata" = Some (VDict metadata)
    ∧ document !! "transactions" = Some (VList (VDict <$> transactions))
    ∧ metadata !! "total_count" = Some (len transactions)
    ∧ metadata !! "house_count" = Some (len house_transactions)
    ∧ metadata !! "senate_count" = Some (len senate_transactions).
Proof.
  unfold CongressDataFetcher.fetch_all.
  destruct (CongressDataFetcher.aggregate _ _) as [all|e]; simpl; [|discriminate].
  destruct (match last all with Some _ => _ | None => _ end) as [f|e]; simpl;
    [|discriminate].
  destruct (match head all with Some _ => _ | None => _ end) as [t|e]; simpl;
    [|discriminate].
  intros [= <-]. eexists _, all.
  split; [reflexivity|]. split; [reflexivity|].
  rewrite create_metadata_lookup_total_count.
  rewrite !create_metadata_lookup_extra by done. repeat split.
Qed.

(** The insiders document counts the transactions it carries. *)
Lemma insiders_total_count (utcnow : datetime)
    (transactions : list (gmap string value)) (document : gmap string value) :
  InsiderDataFetcher.fetch_all utcnow transactions = Ok document →
  ∃ metadata sorted,
    document !! "metadata" = Some (VDict metadata)
    ∧ document !! "transactions" = Some (VList (VDict <$> sorted))
    ∧ metadata !! "total_count" = Some (len sorted).
Proof.
  unfold InsiderDataFetcher.fetch_all.
  destruct (InsiderDataFetcher.aggregate _) as [all|e]; simpl; [|discriminate].
  intros [= <-]. eexists _, all.
  split; [reflexivity|]. split; [reflexivity|].
  now rewrite create_metadata_lookup_total_count.
Qed.

End CountFacts.

(** C3 on the flows document: it carries three ETF-flow records and three
    options records, six records in all, and its metadata is built without
    a [total_count], which stays at the default 0; only [etf_count] and
    [options_count] count the records. *)
Theorem flows_total_count_is_zero (utcnow : datetime) (now : nat → datetime) :
  ∃ metadata etf_flows options,
    FlowDataFetcher.fetch_all utcnow now !! "metadata" = Some (VDict metadata)
    ∧ FlowDataFetcher.fetch_all utcnow now !! "etf_flows" = Some (VList etf_flows)
    ∧ FlowDataFetcher.fetch_all utcnow now !! "options" = Some (VList options)
    ∧ length (etf_flows ++ options) = 6%nat
    ∧ metadata !! "total_count" = Some (VInt 0)
    ∧ metadata !! "etf_count" = Some (len etf_flows)
    ∧ metadata !! "options_count" = Some (len options).
Proof.
  unfold FlowDataFetcher.fetch_all. eexists _, _, _.
  split; [reflexivity|]. split; [reflexivity|]. split; [reflexivity|].
  split; [reflexivity|].
  rewrite create_metadata_lookup_total_count.
  rewrite !create_metadata_lookup_extra by done. repeat split.
Qed.

(** ** The sentiment index *)

Section SentimentFacts.
Import SentimentDataFetcher.
Local Open Scope Q_scope.


(** The sample readings give 65.25, in the band of greed. *)
Lemma fear_greed_score_value :
  fear_greed_score == 65.25
  ∧ classify fear_greed_score = ("Greed", "cautious")%stdpp
  ∧ round1 fear_greed_score == 65.2.
Proof.
  split; [unfold Qeq; vm_compute; reflexivity|].
  split; [|unfold Qeq]; vm_compute; reflexivity.
Qed.

End SentimentFacts.



(** [calculate_fear_greed_index] reports the classification of the score. *)
Lemma calculate_fear_greed_index_entries :
  SentimentDataFetcher.calculate_fear_greed_index !! "classification"
  = Some (VStr "Greed")
  ∧ SentimentDataFetcher.calculate_fear_greed_index !! "signal"
    = Some (VStr "cautious")
  ∧ SentimentDataFetcher.calculate_fear_greed_index !! "index"
    = Some (VFloat (Finite (326 # 5))).
Proof. repeat split. Qed.

(** ** Sorting on descending dates *)

Section SortFacts.
Context {A : Type} (key : A → string).






Lemma insert_desc_perm (x : A) (l : list A) :
  Permutation (insert_desc key x l) (x :: l).
Proof.
  induction l as [|y l IH]; simpl; [reflexivity|].
  destruct (String.ltb (key x) (key y)); [|reflexivity].
  rewrite IH. apply perm_swap.
Qed.

Lemma sort_desc_perm (l : list A) : Permutation (sort_desc key l) l.
Proof.
  induction l as [|x l IH]; simpl; [reflexivity|].
  rewrite insert_desc_perm. now constructor.
Qed.






End SortFacts.

Section DateFacts.




(** [has_str_date]: the date is a string when there is one. *)
Lemma has_str_date_spec (x : gmap string value) :
  has_str_date x = true ↔
  x !! "date" = None ∨ ∃ d, x !! "date" = Some (VStr d).
Proof.
  unfold has_str_date, date_key, dict_get.
  destruct (x !! "date") as [[]|]; simpl; split; eauto; try discriminate;
    intros [E | [d' E]]; discriminate.
Qed.


End DateFacts.



Example aggregate_sample :
  CongressDataFetcher.aggregate sample_house sample_senate
  = Ok [ {[ "person" := VStr "C"; "date" := VStr "2025-03-01" ]};
         {[ "person" := VStr "A"; "date" := VStr "2025-01-05" ]};
         {[ "person" := VStr "B" ]} ].
Proof. reflexivity. Qed.

(** ** The scripts on sample inputs *)

Example create_slug_samples :
  _create_slug "Scion Asset Management, LLC" = Ok "scion"
  ∧ _create_slug "  D.E. Shaw & Co." = Ok "de"
  ∧ _create_slug "Berkshire Hathaway Inc" = Ok "berkshire".
Proof. repeat split. Qed.

Example normalize_transaction_type_samples :
  _normalize_transaction_type "Sale (Full)" = "sale"
  ∧ _normalize_transaction_type "PURCHASE" = "purchase"
  ∧ _normalize_transaction_type "Exchange" = "exchange"
  ∧ _normalize_transaction_type "sell to buy" = "purchase"
  ∧ _normalize_transaction_type "gift" = "purchase".
Proof. repeat split. Qed.

(** One House record, no Senate record: the record is normalized and the
    metadata counts it. *)
Example scenario_congress :
  ∃ transaction document metadata,
    CongressDataFetcher.normalize_all [scenario_house_item] "House" = [transaction]
    ∧ transaction !! "amount_min" = Some (VFloat (Finite 1001))
    ∧ transaction !! "amount_max" = Some (VFloat (Finite 15000))
    ∧ transaction !! "transaction_type" = Some (VStr "purchase")
    ∧ CongressDataFetcher.fetch_all sample_clock [transaction] [] = Ok document
    ∧ document !! "metadata" = Some (VDict metadata)
    ∧ metadata !! "total_count" = Some (VInt 1)
    ∧ metadata !! "house_count" = Some (VInt 1)
    ∧ metadata !! "senate_count" = Some (VInt 0)
    ∧ metadata !! "date_range"
      = Some (VDict {[ "from" := VStr "2025-01-05"; "to" := VStr "2025-01-05" ]}).
Proof.
  eexists _, _, _. repeat (split; [reflexivity|]). reflexivity.
Qed.

(** A record that lacks the date makes the date range of [fetch_all] fail. *)
Example congress_fetch_all_key_error :
  CongressDataFetcher.fetch_all sample_clock sample_house sample_senate
  = Raise (KeyError "date").
Proof. reflexivity. Qed.

(** ** Nested lookup with a default *)

Section SafeGetFacts.

Lemma safe_get_of_default (keys : list string) (dflt : value) :
  is_dict dflt = false → safe_get dflt keys dflt = dflt.
Proof. destruct keys, dflt; simpl; intros; try reflexivity; discriminate. Qed.

End SafeGetFacts.

(** X1: [safe_get] never returns [None] when the default is not [None]: a
    missing key, a [None] on the path and a [None] at its end all give the
    default. *)
Theorem safe_get_not_none (data : value) (keys : list string) (dflt : value) :
  dflt ≠ VNone → safe_get data keys dflt ≠ VNone.
Proof.
  intros Hd. revert data. induction keys as [|key keys IH]; intros data; simpl.
  - destruct data; congruence.
  - destruct data; auto.
Qed.

Lemma safe_get_not_none_witness :
  safe_get (VDict {[ "ticker" := VNone ]}) ["ticker"] (VStr "N/A") ≠ VNone.
Proof. apply (safe_get_not_none _ _ (VStr "N/A")). discriminate. Defined.

(** X2: With a default that is not a dictionary, [safe_get] is the lookup along
    the path: the value at the end of the path when the path exists and
    does not end in [None], the default otherwise. *)
Theorem safe_get_path_lookup (data : value) (keys : list string) (dflt : value) :
  is_dict dflt = false →
  safe_get data keys dflt
  = match path_lookup data keys with
    | Some VNone | None => dflt
    | Some v => v
    end.
Proof.
  intros Hd. revert data. induction keys as [|key keys IH]; intros data; simpl.
  - destruct data; reflexivity.
  - destruct data; try reflexivity. unfold dict_get.
    destruct (d !! key) as [v|]; simpl; [apply IH|].
    now apply safe_get_of_default.
Qed.

Lemma safe_get_path_lookup_witness :
  safe_get (VDict {[ "congress" := VDict {[ "house" := VDict {[ "url" := VStr "u" ]} ]} ]})
    ["congress"; "house"; "url"] VNone = VStr "u"
  ∧ safe_get (VDict {[ "congress" := VStr "off" ]})
      ["congress"; "house"; "url"] VNone = VNone.
Proof. split; apply safe_get_path_lookup; reflexivity. Defined.

(** A default that is a dictionary is searched itself once a key is
    missing. *)
Example safe_get_into_default :
  safe_get (VDict ∅) ["filings"; "recent"] (VDict {[ "recent" := VStr "x" ]})
  = VStr "x".
Proof. reflexivity. Qed.

(** ** Normalized transactions *)

Section NormalizeFacts.

Lemma parse_amount_range_value_cases (v : value) :
  (∃ x y, CongressDataFetcher.parse_amount_range_value v
          = Ok (PyFloat x, PyFloat y))
  ∨ CongressDataFetcher.parse_amount_range_value v = Ok (PyInt 0, PyInt 0).
Proof.
  unfold CongressDataFetcher.parse_amount_range_value.
  destruct (CongressDataFetcher.as_str v) as [s|e]; simpl; [|now right].
  unfold parse_amount_range_try.
  destruct (Str.contains "-" _); simpl.
  - destruct (getitem _ 0) as [p0|]; simpl; [|now right].
    destruct (py_float (Str.strip p0)) as [x|]; simpl; [|now right].
    destruct (getitem _ 1) as [p1|]; simpl; [|now right].
    destruct (py_float (Str.strip p1)) as [y|]; simpl; [|now right].
    left; eauto.
  - destruct (py_float _) as [x|]; simpl; [left; eauto | now right].
Qed.

Lemma normalize_transaction_try_ok (raw_data : value) (chamber raw_type : string) :
  raw_type_of raw_data = VStr raw_type →
  ∃ amount_min amount_max,
    CongressDataFetcher.parse_amount_range_value
      (safe_get raw_data ["amount"] (VStr "N/A")) = Ok (amount_min, amount_max)
    ∧ CongressDataFetcher.normalize_transaction_try raw_data chamber
      = Ok (<["amount_max" := of_pynum amount_max]>
             (<["amount_min" := of_pynum amount_min]>
               {[ "person" := safe_get raw_data ["representative"] (VStr "Unknown");
                  "chamber" := VStr chamber;
                  "ticker" := safe_get raw_data ["ticker"] (VStr "N/A");
                  "sector" := safe_get raw_data ["sector"] (VStr "Unknown");
                  "transaction_type" := VStr (_normalize_transaction_type raw_type);
                  "amount_range" := safe_get raw_data ["amount"] (VStr "N/A");
                  "date" := safe_get raw_data ["transaction_date"] (VStr EmptyString);
                  "disclosure_date" := safe_get raw_data ["disclosure_date"] (VStr EmptyString);
                  "link" := safe_get raw_data ["ptr_link"] (VStr EmptyString) ]})).
Proof.
  intros Ht. unfold CongressDataFetcher.normalize_transaction_try.
  unfold raw_type_of in Ht. rewrite Ht. cbn [CongressDataFetcher.as_str mbind result_bind].
  match goal with
  | |- context [dict_getitem ?m "amount_range"] => set (tx := m)
  end.
  assert (dict_getitem tx "amount_range"
          = Ok (safe_get raw_data ["amount"] (VStr "N/A"))) as ->.
  { unfold dict_getitem, tx. now simplify_map_eq. }
  destruct (parse_amount_range_value_cases (safe_get raw_data ["amount"] (VStr "N/A")))
    as [(x & y & E) | E]; eexists _, _; (split; [exact E|]);
    unfold mbind, result_bind; rewrite E; reflexivity.
Qed.

End NormalizeFacts.

Section NormalizeShape.

Lemma safe_get_some_value (data : value) (keys : list string) (dflt : value) :
  dflt ≠ VNone → safe_get data keys dflt ≠ VNone.
Proof.
  intros Hd. revert data. induction keys as [|key keys IH]; intros data; simpl.
  - destruct data; congruence.
  - destruct data; auto.
Qed.

Lemma normalize_type_cases (raw_type : string) :
  _normalize_transaction_type raw_type = "purchase"
  ∨ _normalize_transaction_type raw_type = "sale"
  ∨ _normalize_transaction_type raw_type = "exchange".
Proof.
  unfold _normalize_transaction_type.
  destruct (_ || _); [auto|]. destruct (_ || _); [auto|].
  destruct (Str.contains "exchange" _); auto.
Qed.

Lemma normalize_transaction_none (raw_data : value) (chamber : string) :
  is_str (raw_type_of raw_data) = false →
  CongressDataFetcher._normalize_transaction raw_data chamber = None.
Proof.
  unfold CongressDataFetcher._normalize_transaction,
    CongressDataFetcher.normalize_transaction_try, raw_type_of.
  destruct (safe_get raw_data ["type"] (VStr "purchase")); simpl;
    try reflexivity; discriminate.
Qed.

(** What a normalized transaction is. *)
Lemma normalize_transaction_some (raw_data : value) (chamber : string)
    (transaction : gmap string value) :
  CongressDataFetcher._normalize_transaction raw_data chamber = Some transaction →
  is_str (raw_type_of raw_data) = true
  ∧ dom transaction = transaction_fields
  ∧ transaction !! "chamber" = Some (VStr chamber)
  ∧ transaction !! "date"
    = Some (safe_get raw_data ["transaction_date"] (VStr EmptyString))
  ∧ map_Forall (fun _ v => v ≠ VNone) transaction
  ∧ (∃ ty, transaction !! "transaction_type" = Some (VStr ty)
           ∧ (ty = "purchase" ∨ ty = "sale" ∨ ty = "exchange"))
  ∧ amounts_of transaction.
Proof.
  destruct (is_str (raw_type_of raw_data)) eqn:Hs.
  2:{ rewrite normalize_transaction_none by exact Hs. discriminate. }
  destruct (raw_type_of raw_data) as [| | | |raw_type| |] eqn:Ht; try discriminate.
  destruct (normalize_transaction_try_ok raw_data chamber raw_type Ht)
    as (amin & amax & Ea & Et).
  unfold CongressDataFetcher._normalize_transaction. rewrite Et.
  intros E. apply (inj Some) in E. subst transaction.
  split; [reflexivity|]. split.
  { rewrite !dom_insert_L, dom_singleton_L. unfold transaction_fields.
    set_solver. }
  split; [now simplify_map_eq|]. split; [now simplify_map_eq|]. split.
  { assert (of_pynum amin ≠ VNone) by (destruct amin; discriminate).
    assert (of_pynum amax ≠ VNone) by (destruct amax; discriminate).
    clear Ea Et.
    repeat match goal with
           | |- context [safe_get raw_data ?ks ?d] =>
               let H := fresh in
               pose proof (safe_get_some_value raw_data ks d
                             ltac:(discriminate)) as H;
               let p := fresh "p" in
               set (p := safe_get raw_data ks d) in *; clearbody p
           end.
    repeat (apply map_Forall_insert_2;
            [cbv beta; first [assumption | discriminate]|]).
    apply map_Forall_empty. }
  split.
  { exists (_normalize_transaction_type raw_type).
    split; [now simplify_map_eq | apply normalize_type_cases]. }
  unfold amounts_of.
  destruct (parse_amount_range_value_cases (safe_get raw_data ["amount"] (VStr "N/A")))
    as [(x & y & E) | E]; rewrite E in Ea; injection Ea as <- <-.
  - left. exists x, y. split; now simplify_map_eq.
  - right. split; now simplify_map_eq.
Qed.

Lemma normalize_transaction_is_some (raw_data : value) (chamber : string) :
  is_str (raw_type_of raw_data) = true →
  is_Some (CongressDataFetcher._normalize_transaction raw_data chamber).
Proof.
  intros Hs.
  destruct (raw_type_of raw_data) as [| | | |raw_type| |] eqn:Ht; try discriminate.
  destruct (normalize_transaction_try_ok raw_data chamber raw_type Ht)
    as (amin & amax & _ & Et).
  unfold CongressDataFetcher._normalize_transaction. rewrite Et. eauto.
Qed.

End NormalizeShape.

(** X3: A raw record is normalized exactly when its type is a string or is
    missing; the normalized record then has all eleven fields whatever the
    source omitted, none of them [None], carries the chamber it was read
    for, a transaction type among purchase, sale and exchange, and two
    amounts that are both floats or both the integer 0. *)
Theorem normalize_transaction_record (raw_data : value) (chamber : string) :
  (is_str (raw_type_of raw_data) = false →
   CongressDataFetcher._normalize_transaction raw_data chamber = None)
  ∧ (is_str (raw_type_of raw_data) = true →
     ∃ transaction,
       CongressDataFetcher._normalize_transaction raw_data chamber
       = Some transaction
       ∧ dom transaction = transaction_fields
       ∧ transaction !! "chamber" = Some (VStr chamber)
       ∧ map_Forall (fun _ v => v ≠ VNone) transaction
       ∧ (∃ ty, transaction !! "transaction_type" = Some (VStr ty)
                ∧ (ty = "purchase" ∨ ty = "sale" ∨ ty = "exchange"))
       ∧ amounts_of transaction).
Proof.
  split; [apply normalize_transaction_none|].
  intros Hs. destruct (normalize_transaction_is_some raw_data chamber Hs) as [t Et].
  exists t. split; [exact Et|].
  destruct (normalize_transaction_some _ _ _ Et) as (_ & H1 & H2 & _ & H3 & H4 & H5).
  auto.
Qed.

Lemma normalize_transaction_record_witness :
  ∃ transaction,
    CongressDataFetcher._normalize_transaction
      (VDict {[ "representative" := VNone; "amount" := VInt 5 ]}) "Senate"
    = Some transaction
    ∧ dom transaction = transaction_fields
    ∧ transaction !! "chamber" = Some (VStr "Senate")
    ∧ map_Forall (fun _ v => v ≠ VNone) transaction
    ∧ (∃ ty, transaction !! "transaction_type" = Some (VStr ty)
             ∧ (ty = "purchase" ∨ ty = "sale" ∨ ty = "exchange"))
    ∧ amounts_of transaction.
Proof.
  apply (normalize_transaction_record
           (VDict {[ "representative" := VNone; "amount" := VInt 5 ]}) "Senate").
  reflexivity.
Defined.

Section FetchFacts.

Lemma normalize_all_app (a b : list value) (chamber : string) :
  CongressDataFetcher.normalize_all (a ++ b) chamber
  = CongressDataFetcher.normalize_all a chamber
    ++ CongressDataFetcher.normalize_all b chamber.
Proof. unfold CongressDataFetcher.normalize_all. apply omap_app. Qed.

Lemma normalize_all_length (data : list value) (chamber : string) :
  length (CongressDataFetcher.normalize_all data chamber)
  = length (List.filter (fun item => is_str (raw_type_of item)) data).
Proof.
  unfold CongressDataFetcher.normalize_all.
  induction data as [|item data IH]; [reflexivity|]. cbn [omap list_omap List.filter].
  destruct (is_str (raw_type_of item)) eqn:Hs.
  - destruct (normalize_transaction_is_some item chamber Hs) as [t ->].
    simpl. now rewrite IH.
  - rewrite normalize_transaction_none by exact Hs. exact IH.
Qed.

Lemma normalize_all_shape (data : list value) (chamber : string) :
  Forall (fun t => dom t = transaction_fields
                   ∧ t !! "chamber" = Some (VStr chamber)
                   ∧ t !! "date" ≠ None)
    (CongressDataFetcher.normalize_all data chamber).
Proof.
  unfold CongressDataFetcher.normalize_all.
  induction data as [|item data IH]; [constructor|]. cbn [omap list_omap].
  destruct (CongressDataFetcher._normalize_transaction item chamber) as [t|] eqn:E;
    [|exact IH].
  constructor; [|exact IH].
  destruct (normalize_transaction_some _ _ _ E) as (_ & H1 & H2 & H3 & _).
  rewrite H3. auto.
Qed.

Lemma fetch_transactions_shape (response : result value) (chamber : string) :
  Forall (fun t => dom t = transaction_fields
                   ∧ t !! "chamber" = Some (VStr chamber)
                   ∧ t !! "date" ≠ None)
    (fetch_congress.fetch_transactions response chamber).
Proof.
  unfold fetch_congress.fetch_transactions.
  destruct (_ ≫= _); [apply normalize_all_shape | constructor].
Qed.

End FetchFacts.

(** X4: A fetch never fails: a request or a response that raises gives the
    empty list; from a JSON array, each item whose type is a string or is
    missing gives one record, in order, and an item of another type is
    dropped without effect on the others; every record has the eleven
    fields and the chamber of the call. *)
Theorem fetch_transactions_isolates_failures (response : result value)
    (chamber : string) :
  Forall (fun t => dom t = transaction_fields
                   ∧ t !! "chamber" = Some (VStr chamber))
    (fetch_congress.fetch_transactions response chamber)
  ∧ (∀ e, response = Raise e →
     fetch_congress.fetch_transactions response chamber = [])
  ∧ (∀ data, response = Ok (VList data) →
     length (fetch_congress.fetch_transactions response chamber)
     = length (List.filter (fun item => is_str (raw_type_of item)) data))
  ∧ (∀ before item after, response = Ok (VList (before ++ item :: after)) →
     is_str (raw_type_of item) = false →
     fetch_congress.fetch_transactions response chamber
     = fetch_congress.fetch_transactions (Ok (VList before)) chamber
       ++ fetch_congress.fetch_transactions (Ok (VList after)) chamber).
Proof.
  split; [|split; [|split]].
  - eapply Forall_impl; [apply fetch_transactions_shape|]. now intros t (H1 & H2 & _).
  - now intros e ->.
  - intros data ->. apply normalize_all_length.
  - intros before item after -> Hs. unfold fetch_congress.fetch_transactions. simpl.
    rewrite normalize_all_app. f_equal.
    unfold CongressDataFetcher.normalize_all. cbn [omap list_omap].
    now rewrite normalize_transaction_none.
Qed.

Lemma fetch_transactions_isolates_witness :
  fetch_congress.fetch_house_transactions
    (Ok (VList [scenario_house_item; VDict {[ "type" := VInt 3 ]}; scenario_house_item]))
  = fetch_congress.fetch_house_transactions (Ok (VList [scenario_house_item]))
    ++ fetch_congress.fetch_house_transactions (Ok (VList [scenario_house_item])).
Proof.
  destruct (fetch_transactions_isolates_failures
              (Ok (VList ([scenario_house_item] ++ VDict {[ "type" := VInt 3 ]}
                            :: [scenario_house_item]))) "House")
    as (_ & _ & _ & H).
  apply (H [scenario_house_item] (VDict {[ "type" := VInt 3 ]})
           [scenario_house_item]); reflexivity.
Defined.

(** A response that is a JSON object or a string, not an array, gives one
    all-default record for each key or character. *)
Example fetch_transactions_of_object :
  fetch_congress.fetch_house_transactions
    (Ok (VDict {[ "error" := VStr "rate limit" ]}))
  = [ {[ "person" := VStr "Unknown"; "chamber" := VStr "House";
         "ticker" := VStr "N/A"; "sector" := VStr "Unknown";
         "transaction_type" := VStr "purchase"; "amount_range" := VStr "N/A";
         "date" := VStr EmptyString; "disclosure_date" := VStr EmptyString;
         "link" := VStr EmptyString;
         "amount_min" := VInt 0; "amount_max" := VInt 0 ]} ].
Proof. vm_compute. reflexivity. Qed.

(** ** The congress document *)

Section CongressDocument.







End CongressDocument.






Section CongressRun.

Lemma congress_fetch_all_returns (utcnow : datetime)
    (house senate : list (gmap string value)) :
  forallb has_str_date (house ++ senate) = true →
  Forall (fun t => t !! "date" ≠ None) (house ++ senate) →
  ∃ document, CongressDataFetcher.fetch_all utcnow house senate = Ok document.
Proof.
  intros Hd Hk.
  unfold CongressDataFetcher.fetch_all, CongressDataFetcher.aggregate, sort_by_date.
  rewrite Hd. cbn [mbind result_bind].
  set (all := sort_desc date_str (house ++ senate)).
  assert (∀ x, x ∈ all → ∃ v, dict_getitem x "date" = Ok v) as Hall.
  { intros x Hx. rewrite Forall_forall in Hk. unfold dict_getitem.
    destruct (x !! "date") as [v|] eqn:E; [eauto|]. exfalso.
    apply (Hk x); [|exact E]. unfold all in Hx.
    now rewrite (sort_desc_perm date_str (house ++ senate)) in Hx. }
  assert (∃ f, match last all with
               | Some x => dict_getitem x "date"
               | None => Ok (VStr EmptyString)
               end = Ok f) as [f ->].
  { destruct (last all) as [x|] eqn:El; [|eauto].
    apply Hall. apply last_Some in El as [l' ->]. set_solver. }
  assert (∃ t, match head all with
               | Some x => dict_getitem x "date"
               | None => Ok (VStr EmptyString)
               end = Ok t) as [t ->].
  { destruct (head all) as [x|] eqn:Eh; [|eauto].
    apply Hall. destruct all; [discriminate|]. injection Eh as ->. set_solver. }
  eauto.
Qed.

Lemma fetched_have_date (house_response senate_response : result value) :
  Forall (fun t : gmap string value => t !! "date" ≠ None)
    (fetch_congress.fetch_house_transactions house_response
     ++ fetch_congress.fetch_senate_transactions senate_response).
Proof.
  apply Forall_app. split;
    (eapply Forall_impl; [apply fetch_transactions_shape|]);
    now intros t (_ & _ & H).
Qed.




End CongressRun.

(** X7: Records that come from the two fetches never make [fetch_all] fail for
    a missing date: every fetched record has its date field, so with dates
    that are strings [fetch_all] returns a document. *)
Theorem congress_fetch_all_of_fetched (utcnow : datetime)
    (house_response senate_response : result value) :
  forallb has_str_date
    (fetch_congress.fetch_house_transactions house_response
     ++ fetch_congress.fetch_senate_transactions senate_response) = true →
  ∃ document,
    CongressDataFetcher.fetch_all utcnow
      (fetch_congress.fetch_house_transactions house_response)
      (fetch_congress.fetch_senate_transactions senate_response)
    = Ok document.
Proof.
  intros Hd. apply congress_fetch_all_returns; [exact Hd|].
  apply fetched_have_date.
Qed.

Lemma congress_fetch_all_of_fetched_witness :
  ∃ document,
    CongressDataFetcher.fetch_all sample_clock
      (fetch_congress.fetch_house_transactions (Ok (VList [scenario_house_item; VDict ∅])))
      (fetch_congress.fetch_senate_transactions (Raise ValueError))
    = Ok document.
Proof.
  apply (congress_fetch_all_of_fetched sample_clock
           (Ok (VList [scenario_house_item; VDict ∅])) (Raise ValueError)).
  vm_compute. reflexivity.
Defined.



Section CongressMain.
Context `{Platform}.


End CongressMain.



(** ** Saving the funds *)

Section SaveAll.
Context `{Platform}.

Lemma save_all_from_outcome (validator : DataValidator)
    (funds_data : list (string * value)) :
  Forall (checks validator) funds_data →
  ∀ (all_success : bool) (sk : sink),
  Fund13FFetcher.save_all_from validator all_success funds_data sk
  = (Ok (all_success
         && forallb (fun fund => passes validator fund
                                 && dump_succeeds fund.2 (fund_path fund.1))
              funds_data),
     sk ++ ((fun fund => call_of fund.2 (fund_path fund.1))
              <$> List.filter (passes validator) funds_data)).
Proof.
  induction 1 as [|[slug data] rest [b Hb] _ IH]; intros all_success sk.
  - simpl. now rewrite andb_true_r, app_nil_r.
  - cbn [Fund13FFetcher.save_all_from forallb List.filter]. unfold passes at 1 3.
    simpl in Hb. cbn [fst snd]. rewrite Hb. destruct b.
    + unfold write_json. rewrite IH. cbn [fmap list_fmap].
      rewrite <- app_assoc. f_equal.
      unfold fund_path. destruct (dump_succeeds data _), all_success; reflexivity.
    + rewrite IH. now rewrite andb_false_r.
Qed.

Lemma save_all_from_raises (validator : DataValidator)
    (before after : list (string * value)) (fund : string * value) (e : exn) :
  Forall (checks validator) before →
  validate validator fund.2 "fund_13f" = Raise e →
  ∀ (all_success : bool) (sk : sink),
  Fund13FFetcher.save_all_from validator all_success (before ++ fund :: after) sk
  = (Raise e,
     sk ++ ((fun fund => call_of fund.2 (fund_path fund.1))
              <$> List.filter (passes validator) before)).
Proof.
  intros Hb He. induction Hb as [|[slug data] rest [b Hb] _ IH];
    intros all_success sk.
  - destruct fund as [slug data]. simpl in *. now rewrite He, app_nil_r.
  - cbn [app Fund13FFetcher.save_all_from List.filter]. unfold passes at 1.
    simpl in Hb. cbn [fst snd]. rewrite Hb. destruct b.
    + unfold write_json. rewrite IH. cbn [fmap list_fmap].
      now rewrite <- app_assoc.
    + now rewrite IH.
Qed.

End SaveAll.

(** X10: [save_all] goes through every fund: when no schema check raises, it
    writes the documents that pass, each to the file of its slug and in
    the order of the dictionary, whatever failed before them, and returns
    [True] exactly when every document passed and every write succeeded.
    A schema check that raises ends the loop and leaves the earlier writes
    in place. *)
Theorem save_all_isolates_failures `{Platform} (validator : DataValidator)
    (funds_data : list (string * value)) (sk : sink) :
  (Forall (checks validator) funds_data →
   Fund13FFetcher.save_all validator funds_data sk
   = (Ok (forallb (fun fund => passes validator fund
                               && dump_succeeds fund.2 (fund_path fund.1))
            funds_data),
      sk ++ ((fun fund => call_of fund.2 (fund_path fund.1))
               <$> List.filter (passes validator) funds_data)))
  ∧ (∀ before fund after e,
     funds_data = before ++ fund :: after →
     Forall (checks validator) before →
     validate validator fund.2 "fund_13f" = Raise e →
     Fund13FFetcher.save_all validator funds_data sk
     = (Raise e,
        sk ++ ((fun fund => call_of fund.2 (fund_path fund.1))
                 <$> List.filter (passes validator) before))).
Proof.
  split.
  - intros Hc. unfold Fund13FFetcher.save_all. now rewrite save_all_from_outcome.
  - intros before fund after e -> Hb He. unfold Fund13FFetcher.save_all.
    now apply save_all_from_raises.
Qed.

Lemma save_all_isolates_witness :
  @Fund13FFetcher.save_all holdings_platform fund_registry sample_funds []
  = (Ok false,
     [ {| written_data := VDict {[ "holdings" := VList [] ]};
          written_path := "data/funds/berkshire.json";
          written_ok := true |} ]).
Proof.
  destruct (@save_all_isolates_failures holdings_platform fund_registry
              sample_funds []) as [Hs _].
  rewrite Hs; [reflexivity|].
  repeat constructor; eexists; reflexivity.
Defined.

(** ** The latest 13F filing *)

Section Fund13F.

Lemma find_13f_some (forms : list value) (i k : nat) :
  fetch_13f.find_13f forms i = Some k →
  ∃ n, k = (i + n)%nat ∧ first_13f_hr forms n.
Proof.
  revert i; induction forms as [|form rest IH]; intros i; simpl; [discriminate|].
  destruct (fetch_13f.is_13f_hr form) eqn:F.
  - intros [= <-]. exists 0%nat. split; [lia|]. split; [eauto|]. intros; lia.
  - intros E. destruct (IH _ E) as (n & -> & (form' & Hf & Hh) & Hmin).
    exists (S n). split; [lia|]. split; [eauto|].
    intros [|j] fm Hj Hfm; simpl in Hfm; [congruence|]. apply (Hmin j); [lia | exact Hfm].
Qed.

Lemma find_13f_first (forms : list value) (i n : nat) :
  first_13f_hr forms n → fetch_13f.find_13f forms i = Some (i + n)%nat.
Proof.
  revert i n; induction forms as [|form rest IH]; intros i n [(fm & Hf & Hh) Hmin].
  - discriminate.
  - simpl. destruct n as [|n]; simpl in Hf.
    + injection Hf as ->. rewrite Hh. f_equal. lia.
    + rewrite (Hmin 0%nat form) by (simpl; auto; lia).
      rewrite (IH (S i) n); [f_equal; lia|].
      split; [eauto|]. intros j fm' Hj Hfm'. apply (Hmin (S j)); [lia | exact Hfm'].
Qed.

Lemma find_13f_none (forms : list value) (i : nat) :
  fetch_13f.find_13f forms i = None ↔
  Forall (fun form => fetch_13f.is_13f_hr form = false) forms.
Proof.
  revert i; induction forms as [|form rest IH]; intros i; simpl.
  - split; [constructor | reflexivity].
  - destruct (fetch_13f.is_13f_hr form) eqn:F.
    + split; [discriminate | intros Hf; inversion Hf; congruence].
    + rewrite IH. split; [now constructor | intros Hf; now inversion Hf].
Qed.

End Fund13F.

(** X11: [fetch_fund_13f] reports the first 13F-HR of the recent filings: with
    columns that are arrays, it is [None] when no form is 13F-HR or when a
    column has no entry at the index of the first 13F-HR; otherwise the
    filing date, the period end and the accession number of the document
    are the entries of their columns at that index, and the holdings are
    empty.  A request that fails gives [None]. *)
Theorem fetch_fund_13f_first_filing (utcnow : datetime) (data : value)
    (cik fund_name : string) (forms filing_dates report_dates accessions : list value) :
  recent_column data "form" = VList forms →
  recent_column data "filingDate" = VList filing_dates →
  recent_column data "reportDate" = VList report_dates →
  recent_column data "accessionNumber" = VList accessions →
  (Forall (fun form => fetch_13f.is_13f_hr form = false) forms →
   fetch_13f.fetch_fund_13f utcnow (Ok data) cik fund_name = None)
  ∧ (∀ k, first_13f_hr forms k →
     (filing_dates !! k = None ∨ report_dates !! k = None ∨ accessions !! k = None) →
     fetch_13f.fetch_fund_13f utcnow (Ok data) cik fund_name = None)
  ∧ (∀ k filing_date period_end accession,
     first_13f_hr forms k →
     filing_dates !! k = Some filing_date →
     report_dates !! k = Some period_end →
     accessions !! k = Some accession →
     ∃ fund_data metadata,
       fetch_13f.fetch_fund_13f utcnow (Ok data) cik fund_name = Some fund_data
       ∧ fund_data !! "fund_info"
         = Some (VDict {[ "name" := VStr fund_name; "cik" := VStr cik;
                          "filing_date" := filing_date;
                          "period_end" := period_end;
                          "total_value" := VInt 0 ]})
       ∧ fund_data !! "holdings" = Some (VList [])
       ∧ fund_data !! "metadata" = Some (VDict metadata)
       ∧ metadata !! "accession_number" = Some accession
       ∧ metadata !! "holdings_count" = Some (VInt 0))
  ∧ (∀ e, fetch_13f.fetch_fund_13f utcnow (Raise e) cik fund_name = None).
Proof.
  unfold recent_column. intros Hf Hd Hr Ha.
  unfold fetch_13f.fetch_fund_13f, fetch_13f.fetch_fund_13f_try.
  cbn [mbind result_bind]. rewrite Hf, Hd, Hr, Ha. cbn [py_iter mbind result_bind].
  split; [|split; [|split]].
  - intros Hn. apply (find_13f_none forms 0) in Hn. now rewrite Hn.
  - intros k Hk Hmiss. rewrite (find_13f_first forms 0 k Hk). simpl.
    unfold getitem. destruct Hmiss as [-> | [-> | ->]]; simpl; [reflexivity| |].
    + now destruct (filing_dates !! k).
    + destruct (filing_dates !! k); simpl; [|reflexivity].
      now destruct (report_dates !! k).
  - intros k fd pe ac Hk H1 H2 H3. rewrite (find_13f_first forms 0 k Hk). simpl.
    unfold getitem. rewrite H1, H2, H3. simpl. eexists _, _.
    split; [reflexivity|]. split; [reflexivity|]. split; [reflexivity|].
    split; [reflexivity|].
    rewrite !create_metadata_lookup_extra by done. split; reflexivity.
  - reflexivity.
Qed.

Lemma fetch_fund_13f_first_filing_witness :
  ∃ fund_data,
    fetch_13f.fetch_fund_13f sample_clock (Ok sample_submissions) "0001649339"
      "Scion Asset Management"
    = Some fund_data
    ∧ fund_data !! "fund_info"
      = Some (VDict {[ "name" := VStr "Scion Asset Management";
                       "cik" := VStr "0001649339";
                       "filing_date" := VStr "2025-11-13";
                       "period_end" := VStr "2025-09-30";
                       "total_value" := VInt 0 ]}).
Proof.
  destruct (fetch_fund_13f_first_filing sample_clock sample_submissions
              "0001649339" "Scion Asset Management"
              [VStr "4"; VStr "13F-HR"; VStr "13F-HR"]
              [VStr "2025-11-14"; VStr "2025-11-13"; VStr "2025-08-14"]
              [VStr "2025-11-12"; VStr "2025-09-30"; VStr "2025-06-30"]
              [VStr "a-3"; VStr "a-2"; VStr "a-1"]
              eq_refl eq_refl eq_refl eq_refl) as (_ & _ & H & _).
  destruct (H 1%nat (VStr "2025-11-13") (VStr "2025-09-30") (VStr "a-2"))
    as (fund_data & metadata & E & Hi & _); try reflexivity.
  - split; [eexists; split; reflexivity|].
    intros [|j] form Hj Hf; [|lia]. injection Hf as <-. reflexivity.
  - exists fund_data. split; [exact E | exact Hi].
Defined.

(** ** The dictionary of the funds *)

Section PriorityFunds.












End PriorityFunds.



(** Two funds of the same first word leave one entry, that of the second. *)
Example tiger_funds_collide :
  ∃ fund_data,
    fetch_13f.fetch_all_priority_funds (fun _ => sample_clock) sample_responses
      tiger_funds = Ok [("tiger", VDict fund_data)]
    ∧ fund_data !! "fund_info"
      = Some (VDict {[ "name" := VStr "Tiger Management LLC";
                       "cik" := VStr "0001027451";
                       "filing_date" := VStr "2025-11-13";
                       "period_end" := VStr "2025-09-30";
                       "total_value" := VInt 0 ]}).
Proof. eexists. split; [vm_compute; reflexivity | reflexivity]. Qed.

(** ** The 13F script *)

Section FundMain.
Context `{Platform}.

#[local] Instance blank_name_dec (fund : string * string) : Decision (blank_name fund).
Proof. unfold blank_name. apply _. Defined.

Lemma get_secret_user_agent (environ : gmap string string) :
  utils.get_secret environ "SEC_EDGAR_USER_AGENT" true
  = if has_user_agent environ then Ok (environ !! "SEC_EDGAR_USER_AGENT")
    else Raise ValueError.
Proof.
  unfold utils.get_secret, has_user_agent.
  destruct (environ !! "SEC_EDGAR_USER_AGENT") as [s|]; [|reflexivity].
  now destruct (Str.is_empty s).
Qed.



End FundMain.



(** The run of the witness: one file for the two funds, status 0. *)
Example fund_main_tiger_run :
  ∃ fund_data,
    @fetch_13f.main holdings_platform (Some [("fund_13f", Ok (VDict ∅))])
      sample_environ tiger_funds (fun _ => sample_clock) sample_responses []
    = (Ok 0%nat,
       [ {| written_data := VDict fund_data;
            written_path := "data/funds/tiger.json";
            written_ok := true |} ]).
Proof. eexists. vm_compute. reflexivity. Qed.

(** ** The registry of schemas *)

Section Registry.

Lemma load_schema_files_raises (before after : list (string * result value))
    (schema_name : string) (e : exn) :
  Forall parsed before →
  ∀ schemas,
  utils.load_schema_files (before ++ (schema_name, Raise e) :: after) schemas
  = Raise e.
Proof.
  induction 1 as [|[name loaded] rest [schema Hs] _ IH]; intros schemas.
  - reflexivity.
  - simpl in Hs. subst loaded. simpl. apply IH.
Qed.

Lemma load_schema_files_spec (files : list (string * result value)) :
  Forall parsed files → NoDup files.*1 →
  ∀ schemas,
  ∃ loaded,
    utils.load_schema_files files schemas = Ok loaded
    ∧ ∀ schema_name schema,
        loaded !! schema_name = Some schema ↔
        (schema_name, Ok schema) ∈ files
        ∨ ((schema_name ∉ files.*1) ∧ schemas !! schema_name = Some schema).
Proof.
  induction 1 as [|[name r] rest [s Hs] _ IH]; intros Hd schemas.
  - exists schemas. split; [reflexivity|]. intros n x. split; [|intros [Hin|[_ ?]]]; auto.
    + intros E. right. split; [|exact E]. intros Hin. inversion Hin.
    + inversion Hin.
  - simpl in Hs. subst r. rewrite fmap_cons in Hd. cbn [fst] in Hd.
    apply NoDup_cons in Hd as [Hn Hd].
    destruct (IH Hd (<[name := s]> schemas)) as (loaded & E & Hl).
    exists loaded. split; [exact E|]. intros n x. rewrite Hl.
    rewrite fmap_cons. cbn [fst]. rewrite !elem_of_cons. split.
    + intros [Hin | [Hnot Hx]]; [now left; right|].
      destruct (decide (n = name)) as [->|Hne].
      * rewrite lookup_insert_eq in Hx. left. left. congruence.
      * rewrite lookup_insert_ne in Hx by congruence. right. split; [|exact Hx].
        intros [?|?]; contradiction.
    + intros [[Heq | Hin] | [Hnot Hx]].
      * injection Heq as -> ->. right. split; [exact Hn|].
        now rewrite lookup_insert_eq.
      * now left.
      * right. split; [tauto|].
        rewrite lookup_insert_ne; [exact Hx|]. intros ->. tauto.
Qed.

End Registry.

(** X14: The registry of [DataValidator]: over a directory whose files all
    parse it maps the stem of each file to its schema and nothing else, so
    a domain without a schema file is rejected; the first file that does
    not parse makes the constructor raise what [json.load] raised; a
    directory that does not exist gives a validator that rejects every
    document. *)
Theorem load_schemas_registry `{Platform} (files : list (string * result value)) :
  (Forall parsed files → NoDup files.*1 →
   ∃ validator,
     utils.new_validator (Some files) = Ok validator
     ∧ (∀ schema_name schema,
        schemas validator !! schema_name = Some schema ↔
        (schema_name, Ok schema) ∈ files)
     ∧ ∀ data schema_name,
         schema_name ∉ (files.*1) → validate validator data schema_name = Ok false)
  ∧ (∀ before schema_name e after,
     files = before ++ (schema_name, Raise e) :: after →
     Forall parsed before →
     utils.new_validator (Some files) = Raise e)
  ∧ ∃ validator,
      utils.new_validator None = Ok validator
      ∧ ∀ data schema_name, validate validator data schema_name = Ok false.
Proof.
  split; [|split].
  - intros Hp Hd. destruct (load_schema_files_spec files Hp Hd ∅) as (loaded & E & Hl).
    assert (∀ schema_name schema,
              loaded !! schema_name = Some schema ↔
              (schema_name, Ok schema) ∈ files) as Hl'.
    { intros n x. rewrite Hl, lookup_empty. split; [|auto].
      intros [? | [_ ?]]; [assumption | discriminate]. }
    exists {| schemas := loaded |}. unfold utils.new_validator. rewrite E.
    split; [reflexivity|]. split; [exact Hl'|].
    intros data n Hn. unfold validate. cbn [schemas].
    destruct (loaded !! n) as [x|] eqn:En; [|reflexivity].
    exfalso. apply Hn. apply Hl' in En. apply list_elem_of_fmap.
    exists (n, Ok x). auto.
  - intros before n e after -> Hb. unfold utils.new_validator.
    now rewrite load_schema_files_raises.
  - exists {| schemas := ∅ |}. split; [reflexivity|].
    intros data n. unfold validate. cbn [schemas]. now rewrite lookup_empty.
Qed.

Lemma load_schemas_registry_witness :
  utils.new_validator (Some sample_schema_dir) = Raise ValueError.
Proof.
  destruct (@load_schemas_registry permissive_platform sample_schema_dir)
    as (_ & Hr & _).
  apply (Hr [("congress", Ok (VDict ∅))] "fund_13f" ValueError
            [("insiders", Ok (VDict ∅))]).
  - reflexivity.
  - repeat constructor. eexists. reflexivity.
Defined.

(** ** Quotes and histories *)

Section Quotes.
Context `{Arithmetic}.

Lemma subscript_truthy (v first : value) :
  subscript v 0 = Ok first → truthy v = true.
Proof.
  destruct v as [| | | |s|l|d]; try discriminate.
  - destruct s; [discriminate | reflexivity].
  - destruct l; [discriminate | reflexivity].
Qed.

Lemma fetch_yahoo_quote_unfold (now : datetime) (data first : value)
    (symbol : string) :
  subscript (chart_result data) 0 = Ok first →
  fetch_macro.fetch_yahoo_quote now (Ok data) symbol
  = if truthy (previous_close first) then
      match (change ← py_sub (market_price first) (previous_close first);
             quotient ← py_truediv change (previous_close first);
             change_pct ← py_mul quotient (VInt 100);
             Ok (change, change_pct)) with
      | Ok changes => Some (quote_of symbol first changes.1 changes.2 now)
      | Raise _ => None
      end
    else Some (quote_of symbol first (VInt 0) (VInt 0) now).
Proof.
  intros Hf. unfold fetch_macro.fetch_yahoo_quote, fetch_macro.fetch_yahoo_quote_try.
  cbn [mbind result_bind]. fold (chart_result data).
  rewrite (subscript_truthy _ _ Hf), Hf. cbn [negb mbind result_bind].
  fold (quote_meta first). fold (market_price first). fold (previous_close first).
  destruct (truthy (previous_close first)); [|reflexivity].
  destruct (py_sub _ _) as [change|e]; cbn [mbind result_bind]; [|reflexivity].
  destruct (py_truediv _ _) as [quotient|e]; cbn [mbind result_bind]; [|reflexivity].
  destruct (py_mul _ _) as [change_pct|e]; reflexivity.
Qed.

Lemma quote_of_price (symbol : string) (first change change_pct : value)
    (now : datetime) :
  quote_of symbol first change change_pct now !! "price" = Some (market_price first).
Proof. unfold quote_of. now simplify_map_eq. Qed.


End Quotes.

(** X15: [fetch_yahoo_quote] never divides by a previous close that is absent,
    [None] or zero: the quote is returned with its price and with change
    and percentage 0, whatever the arithmetic would do.  With a previous
    close the quote carries the difference and the percentage, and it is
    lost when one of the three operations raises.  Every quote carries as
    price the [regularMarketPrice] of the response, 0 when there is
    none. *)
Theorem fetch_yahoo_quote_guards_division `{Arithmetic} (now : datetime)
    (data first : value) (symbol : string) :
  subscript (chart_result data) 0 = Ok first →
  (truthy (previous_close first) = false →
   fetch_macro.fetch_yahoo_quote now (Ok data) symbol
   = Some (quote_of symbol first (VInt 0) (VInt 0) now))
  ∧ (truthy (previous_close first) = true →
     (∀ change quotient change_pct,
        py_sub (market_price first) (previous_close first) = Ok change →
        py_truediv change (previous_close first) = Ok quotient →
        py_mul quotient (VInt 100) = Ok change_pct →
        fetch_macro.fetch_yahoo_quote now (Ok data) symbol
        = Some (quote_of symbol first change change_pct now))
     ∧ (∀ e, py_sub (market_price first) (previous_close first) = Raise e →
        fetch_macro.fetch_yahoo_quote now (Ok data) symbol = None)
     ∧ (∀ change e,
        py_sub (market_price first) (previous_close first) = Ok change →
        py_truediv change (previous_close first) = Raise e →
        fetch_macro.fetch_yahoo_quote now (Ok data) symbol = None))
  ∧ ∀ quote, fetch_macro.fetch_yahoo_quote now (Ok data) symbol = Some quote →
      quote !! "price" = Some (market_price first).
Proof.
  intros Hf. rewrite (fetch_yahoo_quote_unfold _ _ _ _ Hf).
  split; [|split].
  - now intros ->.
  - intros ->. split; [|split].
    + intros change quotient change_pct -> Hq Hp. cbn [mbind result_bind].
      rewrite Hq. cbn [mbind result_bind]. now rewrite Hp.
    + now intros e ->.
    + intros change e -> Hq. cbn [mbind result_bind]. now rewrite Hq.
  - intros quote. destruct (truthy (previous_close first)).
    + destruct (_ ← py_sub _ _; _) as [changes|e]; [|discriminate].
      intros [= <-]. apply quote_of_price.
    + intros [= <-]. apply quote_of_price.
Qed.

Lemma fetch_yahoo_quote_guards_witness :
  @fetch_macro.fetch_yahoo_quote whole_arithmetic sample_clock
    (Ok sample_quote_response) "^VIX" ≫= (.!! "change_pct")
  = Some (VInt 0).
Proof.
  destruct (@fetch_yahoo_quote_guards_division whole_arithmetic sample_clock
              sample_quote_response
              (VDict {[ "meta" := VDict {[ "regularMarketPrice" := VInt 42 ]} ]})
              "^VIX" eq_refl) as [Hz _].
  rewrite Hz; reflexivity.
Defined.

Section Histories.
Context `{Arithmetic}.






End Histories.



(** The history of the witness: the days with a close. *)
Example sample_history_entries :
  @fetch_macro.fetch_yahoo_history whole_arithmetic (Ok sample_history_response)
  = [ {[ "date" := VStr "1970-01-01"; "value" := VInt 10 ]};
      {[ "date" := VStr "1970-01-03"; "value" := VInt 12 ]} ].
Proof. vm_compute. reflexivity. Qed.

(** ** The macro document *)

Section MacroDocument.
Context `{Arithmetic}.








End MacroDocument.

Section MacroFacts.
Context `{Arithmetic}.







End MacroFacts.





(** ** The scale of the index *)

Section IndexScale.
Import SentimentDataFetcher.
Local Open Scope Q_scope.




End IndexScale.



(** ** The scripts of the sample data *)

Section SampleScripts.
Context `{Platform}.

Lemma insiders_fetch_all (utcnow : datetime) :
  fetch_insiders.fetch_all utcnow = Ok (insiders_document utcnow).
Proof.
  unfold fetch_insiders.fetch_all, InsiderDataFetcher.fetch_all,
    InsiderDataFetcher.aggregate.
  assert (sort_by_date (fetch_insiders.fetch_recent_form4 30)
          = Ok [fetch_insiders.jane_doe; fetch_insiders.john_smith]) as ->
    by (vm_compute; reflexivity).
  reflexivity.
Qed.

Lemma document_truthy (key : string) (v : value) (document : gmap string value) :
  truthy (VDict (<[key := v]> document)) = true.
Proof.
  cbn [truthy]. rewrite bool_decide_eq_false_2; [reflexivity|].
  apply insert_non_empty.
Qed.

End SampleScripts.

(** X20: The insiders script sorts its two samples, the later one first, and
    counts them; it never ends for want of data, so with the user agent
    set its outcome is that of the schema check and of the write, and
    without it the script raises [ValueError] before anything is
    written. *)
Theorem insiders_main_outcome `{Platform}
    (schema_dir : option (list (string * result value)))
    (validator : DataValidator) (environ : gmap string string)
    (utcnow : datetime) (sk : sink) :
  utils.new_validator schema_dir = Ok validator →
  fetch_insiders.fetch_all utcnow = Ok (insiders_document utcnow)
  ∧ (has_user_agent environ = false →
     fetch_insiders.main schema_dir environ utcnow sk = (Raise ValueError, sk))
  ∧ (has_user_agent environ = true →
     fetch_insiders.main schema_dir environ utcnow sk
     = match validate validator (VDict (insiders_document utcnow)) "insiders" with
       | Ok true =>
           written_once (VDict (insiders_document utcnow))
             "data/insiders/latest.json" sk
       | Ok false => (Ok 1%nat, sk)
       | Raise e => (Raise e, sk)
       end).
Proof.
  intros Hv. split; [apply insiders_fetch_all|].
  unfold fetch_insiders.main. rewrite Hv, get_secret_user_agent.
  split; intros ->; [reflexivity|].
  rewrite insiders_fetch_all.
  change (dict_getitem (insiders_document utcnow) "transactions")
    with (Ok (VList [ VDict fetch_insiders.jane_doe;
                      VDict fetch_insiders.john_smith ])).
  cbn [truthy]. unfold InsiderDataFetcher.save. rewrite validate_and_write_spec.
  destruct (validate validator _ "insiders") as [[|]|e]; reflexivity.
Qed.

Lemma insiders_main_outcome_witness :
  @fetch_insiders.main permissive_platform None sample_environ sample_clock []
  = (Ok 1%nat, []).
Proof.
  destruct (@insiders_main_outcome permissive_platform None {| schemas := ∅ |}
              sample_environ sample_clock [] eq_refl) as (_ & _ & Hm).
  rewrite Hm; reflexivity.
Defined.

(** X21: The flows and the sentiment script write their document whatever the
    registry of schemas holds, and end with the status of the write; they
    never end for want of data.  Yet both build the registry first: a
    schema file that does not parse makes them raise before anything is
    fetched or written. *)
Theorem unvalidated_scripts_outcome `{Platform}
    (schema_dir : option (list (string * result value)))
    (utcnow : datetime) (now : nat → datetime) (sk : sink) :
  (∀ validator, utils.new_validator schema_dir = Ok validator →
   fetch_flows.main schema_dir utcnow now sk
   = written_once (VDict (FlowDataFetcher.fetch_all utcnow now))
       "data/flows/latest.json" sk
   ∧ fetch_sentiment.main schema_dir utcnow (now 0%nat) sk
     = written_once (VDict (SentimentDataFetcher.fetch_all utcnow (now 0%nat)))
         "data/sentiment/latest.json" sk)
  ∧ (∀ e, utils.new_validator schema_dir = Raise e →
     fetch_flows.main schema_dir utcnow now sk = (Raise e, sk)
     ∧ fetch_sentiment.main schema_dir utcnow (now 0%nat) sk = (Raise e, sk)).
Proof.
  split.
  - intros validator Hv. unfold fetch_flows.main, fetch_sentiment.main.
    rewrite Hv. cbv zeta.
    unfold FlowDataFetcher.fetch_all at 1, SentimentDataFetcher.fetch_all at 1.
    cbv zeta. rewrite !document_truthy. split; reflexivity.
  - intros e Hv. unfold fetch_flows.main, fetch_sentiment.main. now rewrite Hv.
Qed.

Lemma unvalidated_scripts_witness :
  @fetch_flows.main permissive_platform broken_schema_dir sample_clock
    (fun _ => sample_clock) []
  = (Raise ValueError, []).
Proof.
  destruct (@unvalidated_scripts_outcome permissive_platform broken_schema_dir
              sample_clock (fun _ => sample_clock) []) as [_ Hr].
  destruct (Hr ValueError eq_refl) as [Hf _]. exact Hf.
Defined.
